(** * generate_report.py: point-cloud analysis pipeline

    A shallow embedding of [server/utils/generate_report.py].

    - Python [str] values are [string]s; a character is a code point
      below 256 (the input format is ASCII text).
    - Python and NumPy [float64] values are Rocq's primitive binary64
      [float]s, so every arithmetic step rounds as the program's does.
    - The library calls the program makes are modelled after the
      libraries: [float()] and [round()] of CPython, the reductions of
      NumPy ([min], [max], pairwise [sum], [mean], [std]) and
      [cKDTree] of SciPy, whose query is represented by the exhaustive
      search it is equivalent to.
    - [print], [open], [np.random], matplotlib and reportlab are effects:
      stage functions run in the monad [M] over an abstract [World];
      an index array drawn by [np.random.choice] is an input from the
      world. *)

From Stdlib Require Import ZArith List Bool Ascii String Floats Lia.
From Stdlib Require Uint63.
Import ListNotations.

Local Open Scope string_scope.
Local Open Scope Z_scope.

(** ** Python [str] operations used by the parser *)

Module PyStr.

Definition code (c : ascii) : N := N_of_ascii c.

(** [str.isspace] on one character, for code points below 256:
    TAB..CR, FS..US, SPACE, NEL and NBSP. *)
Definition isspace (c : ascii) : bool :=
  let n := code c in
  ((9 <=? n) && (n <=? 13) || (28 <=? n) && (n <=? 32)
   || (n =? 133) || (n =? 160))%N.

Definition is_empty (s : string) : bool :=
  match s with EmptyString => true | _ => false end.

Fixpoint lstrip (s : string) : string :=
  match s with
  | String c r => if isspace c then lstrip r else s
  | EmptyString => EmptyString
  end.

Fixpoint rstrip (s : string) : string :=
  match s with
  | String c r =>
      let r' := rstrip r in
      if isspace c && is_empty r' then EmptyString else String c r'
  | EmptyString => EmptyString
  end.

(** [s.strip()] *)
Definition strip (s : string) : string := rstrip (lstrip s).

(** [s.startswith('#')] *)
Definition startswith_hash (s : string) : bool :=
  match s with
  | String c _ => Ascii.eqb c "#"
  | EmptyString => false
  end.

(** [s.replace(',', ' ')] *)
Fixpoint replace_comma (s : string) : string :=
  match s with
  | String c r =>
      String (if Ascii.eqb c "," then " "%char else c) (replace_comma r)
  | EmptyString => EmptyString
  end.

(** [s.split()]: maximal runs of non-whitespace characters. *)
Fixpoint split (s : string) : list string :=
  match s with
  | EmptyString => []
  | String c r =>
      if isspace c then split r
      else match r with
           | EmptyString => [String c EmptyString]
           | String c' _ =>
               if isspace c' then String c EmptyString :: split r
               else match split r with
                    | t :: ts => String c t :: ts
                    | [] => [String c EmptyString]
                    end
           end
  end.

Definition LF : ascii := ascii_of_N 10.
Definition CR : ascii := ascii_of_N 13.
Definition newline : string := String LF EmptyString.

(** [c * n] for a one-character string [c]. *)
Fixpoint repeat (c : ascii) (n : nat) : string :=
  match n with
  | S n' => String c (repeat c n')
  | O => EmptyString
  end.

(** Iterating a file opened in text mode: universal newlines, every
    terminator (LF, CR, CR LF) is handed over as one LF. *)
Fixpoint readlines (s : string) : list string :=
  match s with
  | EmptyString => []
  | String c r =>
      if Ascii.eqb c LF then String LF EmptyString :: readlines r
      else if Ascii.eqb c CR then
        match r with
        | String c' r' =>
            if Ascii.eqb c' LF then String LF EmptyString :: readlines r'
            else String LF EmptyString :: readlines r
        | EmptyString => [String LF EmptyString]
        end
      else match r with
           | EmptyString => [String c EmptyString]
           | String _ _ =>
               match readlines r with
               | l :: ls => String c l :: ls
               | [] => [String c EmptyString]
               end
           end
  end.

End PyStr.

(** ** Python's [float(str)] *)

Module PyFloat.

Definition is_digit (c : ascii) : bool :=
  let n := PyStr.code c in ((48 <=? n) && (n <=? 57))%N.

Definition digit_val (c : ascii) : Z := Z.of_N (PyStr.code c) - 48.

(** Lower-case an ASCII letter (for the case-insensitive words). *)
Definition lower (c : ascii) : ascii :=
  let n := PyStr.code c in
  if ((65 <=? n) && (n <=? 90))%N then ascii_of_N (n + 32) else c.

Fixpoint lower_str (s : string) : string :=
  match s with
  | String c r => String (lower c) (lower_str r)
  | EmptyString => EmptyString
  end.

(** PEP 515 underscores: one underscore is allowed only between two
    digits; the scan removes them or rejects the text. [prev] is the
    previous character (NUL at the start). *)
Fixpoint strip_underscores (prev : ascii) (s : string) : option string :=
  match s with
  | EmptyString => if Ascii.eqb prev "_" then None else Some EmptyString
  | String c r =>
      if Ascii.eqb c "_" then
        if is_digit prev then strip_underscores c r else None
      else if Ascii.eqb prev "_" && negb (is_digit c) then None
      else option_map (String c) (strip_underscores c r)
  end.

(** Reads a run of decimal digits: accumulated value, number of digits
    read, and the rest of the text. *)
Fixpoint read_digits (s : string) (acc : Z) (n : Z) : Z * Z * string :=
  match s with
  | String c r =>
      if is_digit c then read_digits r (10 * acc + digit_val c) (n + 1)
      else (acc, n, s)
  | EmptyString => (acc, n, s)
  end.

Definition read_sign (s : string) : bool * string :=
  match s with
  | String c r =>
      if Ascii.eqb c "-" then (true, r)
      else if Ascii.eqb c "+" then (false, r)
      else (false, s)
  | EmptyString => (false, s)
  end.

(** The decimal grammar of [strtod]: digits, optional point and digits,
    optional exponent; at least one mantissa digit; the whole text must
    be consumed. The result [(m, e)] stands for [m * 10^e]. *)
Definition parse_decimal (s : string) : option (Z * Z) :=
  let '(m1, n1, r1) := read_digits s 0 0 in
  let '(m2, n2, r2) :=
    match r1 with
    | String c r => if Ascii.eqb c "." then read_digits r m1 0 else (m1, 0, r1)
    | EmptyString => (m1, 0, r1)
    end in
  if n1 + n2 =? 0 then None
  else match r2 with
       | EmptyString => Some (m2, - n2)
       | String c r3 =>
           if Ascii.eqb (lower c) "e" then
             let '(eneg, r4) := read_sign r3 in
             let '(ex, n3, r5) := read_digits r4 0 0 in
             if n3 =? 0 then None
             else match r5 with
                  | EmptyString => Some (m2, (if eneg then - ex else ex) - n2)
                  | String _ _ => None
                  end
           else None
       end.

(** Correct rounding (to nearest, ties to even) of [num / den] to
    binary64, for positive [num] and [den]. The quotient is taken with
    at least 64 significant bits and the remainder gives the location
    of the exact value between two consecutive quotients. *)
Definition round_ratio (neg : bool) (num den : positive) : spec_float :=
  let k := Z.max 0 (64 + Z.log2 (Zpos den) - Z.log2 (Zpos num)) in
  let n := Z.shiftl (Zpos num) k in
  let q := n / Zpos den in
  let r := n mod Zpos den in
  let loc := if r =? 0 then loc_Exact
             else loc_Inexact (Z.compare (2 * r) (Zpos den)) in
  binary_round_aux prec emax neg q (- k) loc.

(** The binary64 nearest to [(-1)^neg * m * 10^e]. *)
Definition strtod_value (neg : bool) (m e : Z) : float :=
  match m with
  | Zpos p =>
      SF2Prim (match e with
               | Zneg d => round_ratio neg p (Pos.pow 10 d)
               | _ => round_ratio neg (p * Z.to_pos (10 ^ e)) 1
               end)
  | _ => if neg then neg_zero else zero
  end.

(** [float(t)] for a token [t] without surrounding whitespace;
    [None] is [ValueError]. *)
Definition float_of_str (t : string) : option float :=
  match strip_underscores Ascii.zero t with
  | None => None
  | Some s =>
      let '(neg, body) := read_sign s in
      match parse_decimal body with
      | Some (m, e) => Some (strtod_value neg m e)
      | None =>
          let w := lower_str body in
          if String.eqb w "inf" || String.eqb w "infinity" then
            Some (if neg then neg_infinity else infinity)
          else if String.eqb w "nan" then Some nan
          else None
      end
  end.

End PyFloat.

(** ** Exceptions and results *)

(** An instance of (a subclass of) Python's [Exception]: the class name
    and [str(e)]. *)
Record py_exception : Type := Exception {
  exc_type : string;
  exc_str : string
}.

Inductive result (A : Type) : Type :=
| Val (a : A)
| Raise (e : py_exception).

Arguments Val {A} a.
Arguments Raise {A} e.

Definition ValueError (msg : string) : py_exception :=
  Exception "ValueError" msg.

Definition OverflowError (msg : string) : py_exception :=
  Exception "OverflowError" msg.

Local Open Scope float_scope.

(** ** NumPy reductions on one-dimensional [float64] arrays *)

Module np.

(** Conversion of a Python [int] to [float64] (exact below [2^53]). *)
Definition float_of_Z (z : Z) : float :=
  SF2Prim (binary_normalize prec emax z 0%Z false).

Definition float_of_nat (n : nat) : float := float_of_Z (Z.of_nat n).

(** [np.minimum] and [np.maximum] as the reductions apply them to the
    accumulator [a] and the next element [b]: a NaN in the accumulator
    stays, a NaN element replaces the accumulator, and on a tie the
    element is taken (so of two zeros of different sign the later one
    is kept). *)
Definition minimum (a b : float) : float :=
  if (a <? b) || is_nan a then a else b.

Definition maximum (a b : float) : float :=
  if (b <? a) || is_nan a then a else b.

Definition zero_size (op : string) : py_exception :=
  ValueError ("zero-size array to reduction operation " ++ op
              ++ " which has no identity").

(** [np.min(a)] and [np.max(a)]: the reduction starts from the first
    element. *)
Definition min (a : list float) : result float :=
  match a with
  | x :: r => Val (fold_left minimum r x)
  | [] => Raise (zero_size "minimum")
  end.

Definition max (a : list float) : result float :=
  match a with
  | x :: r => Val (fold_left maximum r x)
  | [] => Raise (zero_size "maximum")
  end.

(** The eight accumulators of the unrolled summation loop. *)
Record lanes : Type := Lanes {
  r0 : float; r1 : float; r2 : float; r3 : float;
  r4 : float; r5 : float; r6 : float; r7 : float
}.

(** The unrolled block (8 <= n <= 128): whole groups of eight are added
    lane by lane, the lanes are combined as a tree, and the remaining
    [n mod 8] elements are added one by one. *)
Fixpoint pw_block (r : lanes) (a : list float) : float :=
  match a with
  | a0 :: a1 :: a2 :: a3 :: a4 :: a5 :: a6 :: a7 :: rest =>
      pw_block (Lanes (r0 r + a0) (r1 r + a1) (r2 r + a2) (r3 r + a3)
                      (r4 r + a4) (r5 r + a5) (r6 r + a6) (r7 r + a7)) rest
  | _ =>
      fold_left add a
        (((r0 r + r1 r) + (r2 r + r3 r)) + ((r4 r + r5 r) + (r6 r + r7 r)))
  end.

(** NumPy's pairwise summation. Below eight elements it is a plain
    loop starting from [-0.0]; up to 128 elements it is [pw_block];
    above, the array is split near the middle at a multiple of eight.
    [fuel] bounds the depth of the splitting. *)
Fixpoint pairwise_sum (fuel : nat) (a : list float) : float :=
  let n := List.length a in
  if (n <? 8)%nat then fold_left add a neg_zero
  else if (n <=? 128)%nat then
    match a with
    | a0 :: a1 :: a2 :: a3 :: a4 :: a5 :: a6 :: a7 :: rest =>
        pw_block (Lanes a0 a1 a2 a3 a4 a5 a6 a7) rest
    | _ => fold_left add a neg_zero
    end
  else
    match fuel with
    | S f =>
        let n2 := (n / 2 - (n / 2) mod 8)%nat in
        pairwise_sum f (firstn n2 a) + pairwise_sum f (skipn n2 a)
    | O => fold_left add a neg_zero
    end.

(** [np.add.reduce(a)]: the pairwise sum added to the identity [0.0]
    (so a sum of negative zeros is [+0.0]). *)
Definition sum (a : list float) : float :=
  zero + pairwise_sum (List.length a) a.

(** [np.mean(a)] *)
Definition mean (a : list float) : float :=
  sum a / float_of_nat (List.length a).

(** [np.std(a)] with the default [ddof=0]: the mean is taken first,
    then the mean of the squared deviations, then the square root. *)
Definition std (a : list float) : float :=
  let arrmean := sum a / float_of_nat (List.length a) in
  let x := map (fun v => (v - arrmean) * (v - arrmean)) a in
  sqrt (sum x / float_of_nat (List.length a)).

(** [np.isfinite] *)
Definition isfinite (x : float) : bool := is_finite x.

End np.

(** ** Python built-ins on numbers *)

Module PyNum.

(** [a / b] on Python [int]s with [b > 0]: the correctly rounded
    quotient, or [OverflowError] when it exceeds the [float] range. *)
Definition int_truediv (a : Z) (b : positive) : result float :=
  let checked (q : spec_float) : result float :=
    match q with
    | S754_finite _ _ _ | S754_zero _ => Val (SF2Prim q)
    | _ => Raise (OverflowError "integer division result too large for a float")
    end in
  match a with
  | Z0 => Val zero
  | Zpos p => checked (PyFloat.round_ratio false p b)
  | Zneg p => checked (PyFloat.round_ratio true p b)
  end.

(** The integer nearest to [num / den], ties to even. *)
Definition nearest_even (num : Z) (den : positive) : Z :=
  let q := (num / Zpos den)%Z in
  let r := (num mod Zpos den)%Z in
  match (2 * r ?= Zpos den)%Z with
  | Lt => q
  | Gt => (q + 1)%Z
  | Eq => if Z.even q then q else (q + 1)%Z
  end.

(** [round(x, ndigits)] for a [float] and [0 <= ndigits]: the exact
    binary value is rounded to [ndigits] decimals (ties to even) and
    the decimal is converted back; zeros, infinities and NaN are
    returned unchanged. *)
Definition round (x : float) (ndigits : Z) : float :=
  match Prim2SF x with
  | S754_finite s m e =>
      let scaled := (Zpos m * 10 ^ ndigits)%Z in
      let q := match e with
               | Zneg d => nearest_even scaled (Pos.pow 2 d)
               | _ => (scaled * 2 ^ e)%Z
               end in
      PyFloat.strtod_value s q (- ndigits)
  | _ => x
  end.

End PyNum.

(** ** Points, and scipy's [cKDTree] *)

Record Point : Type := mkPoint { px : float; py : float; pz : float }.

(** An array of shape [(N, 3)]. *)
Definition PointSet : Type := list Point.

Module cKDTree.

Definition finite_point (p : Point) : bool :=
  np.isfinite (px p) && np.isfinite (py p) && np.isfinite (pz p).

(** [np.isfinite(data).all()] *)
Definition all_finite (data : PointSet) : bool := forallb finite_point data.

(** The index is represented by the points it holds. *)
Record tree : Type := Tree { data : PointSet }.

(** [cKDTree(data)]: non-finite coordinates are refused. *)
Definition build (d : PointSet) : result tree :=
  if all_finite d then Val (Tree d)
  else Raise (ValueError "data must be finite, check for nan or inf values").

(** Squared Euclidean distance in three dimensions, accumulated from
    zero in coordinate order. *)
Definition sqeuclidean (u v : Point) : float :=
  let dx := px u - px v in
  let dy := py u - py v in
  let dz := pz u - pz v in
  ((0 + dx * dx) + dy * dy) + dz * dz.

(** The two best squared distances seen so far, nearest first; slots
    not yet filled hold infinity. *)
Definition push (best : float * float) (d : float) : float * float :=
  let '(m1, m2) := best in
  if d <? m1 then (d, m1)
  else if d <? m2 then (m1, d)
  else (m1, m2).

(** The row of [tree.query(x, k=2)] for one query point: distances to
    the two nearest indexed points in increasing order; a missing
    neighbour is reported at infinite distance. *)
Definition query_point (t : tree) (x : Point) : float * float :=
  let '(m1, m2) :=
    fold_left (fun best p => push best (sqeuclidean x p)) (data t)
              (infinity, infinity) in
  (sqrt m1, sqrt m2).

(** [distances, _ = tree.query(x, k=2)] *)
Definition query (t : tree) (x : PointSet) : result (list (float * float)) :=
  if all_finite x then Val (map (query_point t) x)
  else Raise (ValueError "'x' must be finite, check for nan or inf values").

End cKDTree.

(** ** Effects: printed lines, exceptions, the outside world *)

Inductive pyval : Type :=
| PInt (n : Z)
| PFloat (f : float)
| PStr (s : string)
| PBool (b : bool).

(** One part of a printed line: literal text, or a formatted value
    [{v:spec}] of an f-string. *)
Inductive piece : Type :=
| Lit (s : string)
| Fmt (v : pyval) (spec : string).

Inductive event : Type :=
| Stdout (line : list piece)                           (* print(...) *)
| Stderr (line : list piece)                           (* print(..., file=sys.stderr) *)
| StdoutJson (tag : string) (payload : list (string * pyval)).
                                                       (* print(tag + json.dumps(payload)) *)

Definition trace : Type := list event.

(** A computation over the world [W]: what it prints, its value or the
    exception it raises, and the world it leaves. *)
Definition M (W A : Type) : Type := W -> trace * result A * W.

Definition ret {W A} (a : A) : M W A := fun w => ([], Val a, w).

Definition raise {W A} (e : py_exception) : M W A := fun w => ([], Raise e, w).

Definition bind {W A B} (c : M W A) (k : A -> M W B) : M W B :=
  fun w =>
    match c w with
    | (t1, Val a, w1) =>
        let '(t2, r, w2) := k a w1 in ((t1 ++ t2)%list, r, w2)
    | (t1, Raise e, w1) => (t1, Raise e, w1)
    end.

Definition emit {W} (ev : event) : M W unit := fun w => ([ev], Val tt, w).

Definition print {W} (line : list piece) : M W unit := emit (Stdout line).

Definition lift {W A} (r : result A) : M W A := fun w => ([], r, w).

(** A call into the outside world (a library, the file system): it
    prints nothing on the program's channels. *)
Definition extern (W A : Type) : Type := W -> result A * W.

Definition call {W A} (f : extern W A) : M W A :=
  fun w => let '(r, w') := f w in ([], r, w').

(** A call that only inspects the world. *)
Definition inspect {W A} (f : W -> result A) : M W A :=
  fun w => ([], f w, w).

(** [try: body / except Exception as e: handler e] *)
Definition try_except {W A} (body : M W A) (handler : py_exception -> M W A)
  : M W A :=
  fun w =>
    match body w with
    | (t1, Val a, w1) => (t1, Val a, w1)
    | (t1, Raise e, w1) =>
        let '(t2, r, w2) := handler e w1 in ((t1 ++ t2)%list, r, w2)
    end.

Declare Scope py_scope.
Delimit Scope py_scope with py.
Notation "x <- c ;; k" := (bind c (fun x => k))
  (at level 61, c at next level, right associativity) : py_scope.
Notation "c ;; k" := (bind c (fun _ => k))
  (at level 61, right associativity) : py_scope.

(** The statistics dictionary of [calculate_statistics]. *)
Record Stats : Type := mkStats {
  count : nat;
  x_min : float; x_max : float;
  y_min : float; y_max : float;
  z_min : float; z_max : float;
  x_extent : float; y_extent : float; z_extent : float;
  x_mean : float; y_mean : float; z_mean : float;
  x_std : float; y_std : float; z_std : float
}.

(** How the process ends. *)
Inductive termination : Type :=
| Exit (status : Z)                 (* normal end, or sys.exit(status) *)
| Traceback (e : py_exception).     (* an exception nobody caught *)

(** ** The parser: the loop body of [parse_xyz_file] *)

Definition parse_line (line : string) : option Point :=
  let line := PyStr.strip line in
  if PyStr.is_empty line || PyStr.startswith_hash line then None
  else
    match PyStr.split (PyStr.replace_comma line) with
    | p0 :: p1 :: p2 :: _ =>
        match PyFloat.float_of_str p0 with
        | Some x =>
            match PyFloat.float_of_str p1 with
            | Some y =>
                match PyFloat.float_of_str p2 with
                | Some z => Some (mkPoint x y z)
                | None => None
                end
            | None => None
            end
        | None => None
        end
    | _ => None
    end.

(** The whole loop: the points of the accepted lines, in file order. *)
Fixpoint parse_lines (lines : list string) : PointSet :=
  match lines with
  | line :: rest =>
      match parse_line line with
      | Some p => p :: parse_lines rest
      | None => parse_lines rest
      end
  | [] => []
  end.

(** [points[indices]]: an index outside the array is an [IndexError]. *)
Fixpoint take {A} (points : list A) (indices : list nat) : result (list A) :=
  match indices with
  | i :: rest =>
      match nth_error points i, take points rest with
      | Some p, Val ps => Val (p :: ps)
      | None, _ => Raise (Exception "IndexError" "index out of bounds")
      | _, Raise e => Raise e
      end
  | [] => Val []
  end.

(** What [np.random.choice(n, k, replace=False)] may return: [k]
    pairwise distinct indices below [n]. *)
Definition valid_draw (n k : nat) (indices : list nat) : Prop :=
  List.length indices = k /\ NoDup indices /\ Forall (fun i => (i < n)%nat) indices.

(** The cap on the number of points drawn in the 3D view. *)
Definition vis_limit : nat := Z.to_nat 50000.

Local Open Scope py_scope.

Section Pipeline.

(** The world outside the program: the file system, the state of
    NumPy's global generator, matplotlib and reportlab. *)
Variable World : Type.

(** [open(path, 'r')] and reading it to the end: the decoded text, or
    the exception raised. *)
Variable fs_read : World -> string -> result string.
(** [os.path.getsize] and [os.path.basename] *)
Variable os_getsize : World -> string -> result Z.
Variable os_path_basename : string -> string.
(** [np.random.choice(a, size, replace)] on the global generator:
    [size] indices below [a]; [replace] says whether an index may be
    drawn more than once. *)
Variable np_random_choice : nat -> nat -> bool -> extern World (list nat).
(** matplotlib: the histogram of the Z values (lines 157-178) and the
    3D scatter (lines 205-240), each returning a PNG buffer. *)
Variable Buffer : Type.
Variable plt_histogram : list float -> Z -> extern World Buffer.
Variable plt_scatter3d : PointSet -> Z -> extern World Buffer.
(** reportlab: building the document at [output_path] (lines 262-390). *)
Variable doc_build :
  string -> string -> Stats -> float -> Buffer -> Buffer -> extern World unit.

Local Abbreviation M := (M World).

Definition parse_xyz_file (filepath : string) : M PointSet :=
  print [Lit "[Parser] Reading file: "; Fmt (PStr (os_path_basename filepath)) ""] ;;
  text <- inspect (fun w => fs_read w filepath) ;;
  let points := parse_lines (PyStr.readlines text) in
  if (List.length points =? 0)%nat then
    raise (ValueError "No valid points found in file")
  else
    print [Lit "[Parser] Loaded "; Fmt (PInt (Z.of_nat (List.length points))) "";
           Lit " points"] ;;
    ret points.

Definition calculate_statistics (points : PointSet) : M Stats :=
  print [Lit "[Analysis] Calculating statistics..."] ;;
  xmin <- lift (np.min (map px points)) ;;
  xmax <- lift (np.max (map px points)) ;;
  ymin <- lift (np.min (map py points)) ;;
  ymax <- lift (np.max (map py points)) ;;
  zmin <- lift (np.min (map pz points)) ;;
  zmax <- lift (np.max (map pz points)) ;;
  let stats := {|
    count := List.length points;
    x_min := xmin; x_max := xmax;
    y_min := ymin; y_max := ymax;
    z_min := zmin; z_max := zmax;
    x_extent := xmax - xmin;
    y_extent := ymax - ymin;
    z_extent := zmax - zmin;
    x_mean := np.mean (map px points);
    y_mean := np.mean (map py points);
    z_mean := np.mean (map pz points);
    x_std := np.std (map px points);
    y_std := np.std (map py points);
    z_std := np.std (map pz points)
  |} in
  print [Lit "[Analysis] Total points: "; Fmt (PInt (Z.of_nat (count stats))) ""] ;;
  ret stats.

(** Lines 121-127: the working set of the nearest-neighbour search. *)
Definition sample (points : PointSet) (sample_size : nat) : M PointSet :=
  if (sample_size <? List.length points)%nat then
    indices <- call (np_random_choice (List.length points) sample_size false) ;;
    sample_points <- lift (take points indices) ;;
    print [Lit "[Analysis] Using "; Fmt (PInt (Z.of_nat sample_size)) "";
           Lit " sampled points for NN calculation"] ;;
    ret sample_points
  else ret points.

(** Lines 129-138: index, query and average over the working set. *)
Definition average_nearest (sample_points : PointSet) : result float :=
  match cKDTree.build sample_points with
  | Raise e => Raise e
  | Val tree =>
      match cKDTree.query tree sample_points with
      | Raise e => Raise e
      | Val distances =>
          let nearest_distances := map snd distances in
          Val (np.mean nearest_distances)
      end
  end.

Definition calculate_nearest_neighbor_distance
    (points : PointSet) (sample_size : nat) : M float :=
  print [Lit "[Analysis] Calculating nearest neighbor distance..."] ;;
  sample_points <- sample points sample_size ;;
  avg_distance <- lift (average_nearest sample_points) ;;
  print [Lit "[Analysis] Average nearest neighbor distance: ";
         Fmt (PFloat avg_distance) ".4f"] ;;
  ret avg_distance.

Definition create_z_histogram (points : PointSet) (dpi : Z) : M Buffer :=
  print [Lit "[Visualization] Creating Z-histogram..."] ;;
  buf <- call (plt_histogram (map pz points) dpi) ;;
  print [Lit "[Visualization] Z-histogram created"] ;;
  ret buf.

(** Lines 197-203: the points that are drawn. *)
Definition downsample (points : PointSet) : M PointSet :=
  if (vis_limit <? List.length points)%nat then
    indices <- call (np_random_choice (List.length points) vis_limit false) ;;
    vis_points <- lift (take points indices) ;;
    print [Lit "[Visualization] Downsampled to 50,000 points for visualization"] ;;
    ret vis_points
  else ret points.

Definition create_3d_visualization (points : PointSet) (dpi : Z) : M Buffer :=
  print [Lit "[Visualization] Creating 3D point cloud visualization..."] ;;
  vis_points <- downsample points ;;
  buf <- call (plt_scatter3d vis_points dpi) ;;
  print [Lit "[Visualization] 3D visualization created"] ;;
  ret buf.

Definition getsize (path : string) : M Z :=
  inspect (fun w => os_getsize w path).

Definition generate_pdf_report
    (points : PointSet) (stats : Stats) (avg_nn_distance : float)
    (histogram_buf visualization_buf : Buffer)
    (output_path original_filename : string) : M string :=
  print [Lit "[Report] Generating PDF report..."] ;;
  call (doc_build output_path original_filename stats avg_nn_distance
                 histogram_buf visualization_buf) ;;
  size <- getsize output_path ;;
  file_size_mb <- lift (PyNum.int_truediv size 1048576) ;;
  print [Lit "[Report] PDF generated successfully: "; Fmt (PStr output_path) ""] ;;
  print [Lit "[Report] File size: "; Fmt (PFloat file_size_mb) ".2f"; Lit " MB"] ;;
  (if 2 <? file_size_mb
   then print [Lit "[Report] WARNING: File size exceeds 2 MB limit!"]
   else ret tt) ;;
  ret output_path.

Definition rule : string := PyStr.repeat "=" 60.

Definition usage : list piece :=
  [Lit "Usage: python generate_report.py <input_file> <output_file>"].

(** The [try] block of [main]. *)
Definition main_body (input_file output_file : string) : M termination :=
  points <- parse_xyz_file input_file ;;
  stats <- calculate_statistics points ;;
  avg_nn_distance <- calculate_nearest_neighbor_distance points 1000 ;;
  histogram_buf <- create_z_histogram points 120 ;;
  visualization_buf <- create_3d_visualization points 120 ;;
  let original_filename := os_path_basename input_file in
  generate_pdf_report points stats avg_nn_distance
                      histogram_buf visualization_buf
                      output_file original_filename ;;
  print [Lit rule] ;;
  print [Lit "REPORT GENERATION COMPLETED SUCCESSFULLY"] ;;
  print [Lit rule; Lit PyStr.newline] ;;
  size <- getsize output_file ;;
  mb <- lift (PyNum.int_truediv size 1048576) ;;
  emit (StdoutJson "JSON_RESULT:"
          [("success", PBool true);
           ("output_file", PStr output_file);
           ("file_size_mb", PFloat (PyNum.round mb 2));
           ("point_count", PInt (Z.of_nat (count stats)))]) ;;
  ret (Exit 0).

(** The [except Exception as e] block of [main]. *)
Definition main_handler (e : py_exception) : M termination :=
  emit (Stderr [Lit "ERROR: "; Fmt (PStr (exc_str e)) ""]) ;;
  emit (StdoutJson "JSON_RESULT:"
          [("success", PBool false);
           ("error", PStr (exc_str e))]) ;;
  ret (Exit 1).

(** [main()] run as the script, with [sys.argv = argv]. *)
Definition main (argv : list string) (w : World) : trace * termination * World :=
  if (List.length argv <? 3)%nat then
    ([Stdout usage], Exit 1, w)
  else
    let input_file := nth 1 argv "" in
    let output_file := nth 2 argv "" in
    let script : M termination :=
      print [Lit PyStr.newline; Lit rule] ;;
      print [Lit "POINT CLOUD ANALYSIS AND REPORT GENERATION"] ;;
      print [Lit rule] ;;
      try_except (main_body input_file output_file) main_handler in
    match script w with
    | (t, Val status, w') => (t, status, w')
    | (t, Raise e, w') => (t, Traceback e, w')
    end.

End Pipeline.

(** ** A simulated world, to run the program on concrete inputs *)

Module Sim.

(** Text files by path, sizes of written files by path, the index
    arrays that the generator hands out next, and the libraries that are
    broken ("histogram", "scatter", "report"). *)
Record World : Type := mkWorld {
  files : list (string * string);
  sizes : list (string * Z);
  draws : list (list nat);
  faults : list string
}.

Definition broken (w : World) (name : string) : bool :=
  existsb (String.eqb name) (faults w).

Fixpoint lookup {A} (path : string) (table : list (string * A)) : option A :=
  match table with
  | (k, v) :: rest => if String.eqb k path then Some v else lookup path rest
  | [] => None
  end.

(** [FileNotFoundError(2, 'No such file or directory', path)] *)
Definition not_found (path : string) : py_exception :=
  Exception "FileNotFoundError"
    ("[Errno 2] No such file or directory: '" ++ path ++ "'").

Definition fs_read (w : World) (path : string) : result string :=
  match lookup path (files w) with
  | Some text => Val text
  | None => Raise (not_found path)
  end.

Definition os_getsize (w : World) (path : string) : result Z :=
  match lookup path (sizes w) with
  | Some n => Val n
  | None => Raise (not_found path)
  end.

Fixpoint has_slash (s : string) : bool :=
  match s with
  | String c r => Ascii.eqb c "/" || has_slash r
  | EmptyString => false
  end.

(** [os.path.basename]: what follows the last slash. *)
Fixpoint os_path_basename (path : string) : string :=
  match path with
  | String c r => if has_slash path then os_path_basename r else path
  | EmptyString => EmptyString
  end.

Definition np_random_choice (n k : nat) (replace : bool)
  : extern World (list nat) :=
  fun w =>
    match draws w with
    | d :: rest => (Val d, mkWorld (files w) (sizes w) rest (faults w))
    | [] => (Val (seq 0 k), w)
    end.

Definition plt_histogram (z : list float) (dpi : Z) : extern World unit :=
  fun w =>
    if broken w "histogram"
    then (Raise (Exception "RuntimeError" "cannot render histogram"), w)
    else (Val tt, w).

Definition plt_scatter3d (points : PointSet) (dpi : Z) : extern World unit :=
  fun w =>
    if broken w "scatter"
    then (Raise (Exception "RuntimeError" "cannot render scatter"), w)
    else (Val tt, w).

(** Writing the document creates a file of 1.5 MB. *)
Definition doc_build (output_path original_filename : string) (stats : Stats)
    (avg : float) (h v : unit) : extern World unit :=
  fun w =>
    if broken w "report"
    then (Raise (Exception "PermissionError" "[Errno 13] Permission denied"), w)
    else (Val tt, mkWorld (files w) ((output_path, 1572864%Z) :: sizes w)
                          (draws w) (faults w)).

Definition main :=
  main World fs_read os_getsize os_path_basename np_random_choice unit
       plt_histogram plt_scatter3d doc_build.

Definition lines (ls : list string) : string :=
  String.concat PyStr.newline ls ++ PyStr.newline.

(** The input of the end-to-end example. *)
Definition example_text : string :=
  lines ["0 0 0"; "1 0 0"; "0 1 0"; "# comment"; ""; "bad data here"].

Definition world_of (text : string) : World :=
  mkWorld [("in.xyz", text)] [] [] [].

(** A file without any point: a comment, a blank line, a short line
    and a line of words. *)
Definition garbage_text : string :=
  lines ["# only a comment"; ""; "1 2"; "a b c"].

(** A file with non-finite coordinates. *)
Definition nonfinite_text : string := lines ["nan inf -inf"; "infinity 0 0"].

Definition argv : list string := ["generate_report.py"; "in.xyz"; "out.pdf"].
Definition argv_missing : list string :=
  ["generate_report.py"; "missing.xyz"; "out.pdf"].
Definition argv_short : list string := ["generate_report.py"; "in.xyz"].

(** A world with the input file [text] and the broken libraries [fs]. *)
Definition world_with_faults (text : string) (fs : list string) : World :=
  mkWorld [("in.xyz", text)] [] [] fs.

(** A world whose generator hands out [d] next. *)
Definition world_drawing (d : list nat) : World := mkWorld [] [] [d] [].

Definition main_body :=
  main_body World fs_read os_getsize os_path_basename np_random_choice unit
            plt_histogram plt_scatter3d doc_build.

Definition sample := sample World np_random_choice.

Definition parse_xyz_file := parse_xyz_file World fs_read os_path_basename.

Definition calculate_nearest_neighbor_distance :=
  calculate_nearest_neighbor_distance World np_random_choice.

End Sim.

(** Three copies of the point (0.1, 0.1, 0.1), as parsed. *)
Definition repeated_points : PointSet :=
  parse_lines ["0.1 0.1 0.1"; "0.1 0.1 0.1"; "0.1 0.1 0.1"].

(** 1001 points on the X axis, one unit apart. *)
Definition line_points : PointSet :=
  map (fun i => mkPoint (np.float_of_nat i) 0 0) (seq 0 1001).


(** Two draws of 1000 positions out of 1001: all but the last one, and
    all but the last but one. *)
Definition draw_a : list nat := seq 0 1000.
Definition draw_b : list nat := seq 0 999 ++ [1000%nat].

(** The three points of the end-to-end example. *)
Definition example_points : PointSet :=
  [mkPoint 0 0 0; mkPoint 1 0 0; mkPoint 0 1 0].

(** ** Observations on a trace *)

Definition is_json (ev : event) : bool :=
  match ev with StdoutJson _ _ => true | _ => false end.

Definition is_stderr (ev : event) : bool :=
  match ev with Stderr _ => true | _ => false end.

(** The structured results printed on standard output. *)
Definition json_results (t : trace) : trace := filter is_json t.

(** What was printed on standard error. *)
Definition stderr_lines (t : trace) : trace := filter is_stderr t.

Definition value_of {W A} (o : trace * result A * W) : result A := snd (fst o).

Definition trace_of {W A} (o : trace * A * W) : trace := fst (fst o).

Definition no_valid_points : py_exception :=
  ValueError "No valid points found in file".

Definition not_finite : py_exception :=
  ValueError "data must be finite, check for nan or inf values".

(** No element of the array is NaN. *)
Definition no_nan (a : list float) : Prop :=
  Forall (fun v => is_nan v = false) a.

(** What [calculate_statistics] stores for one axis, given the column
    [col] of that coordinate. *)
Definition axis_spec (col : list float) (mn mx ext mean std : float) : Prop :=
  np.min col = Val mn /\
  np.max col = Val mx /\
  (no_nan col ->
   forall v, In v col -> (mn <=? v) = true /\ (v <=? mx) = true) /\
  ext = mx - mn /\
  mean = np.sum col / np.float_of_nat (List.length col) /\
  std = sqrt (np.sum (map (fun v => (v - mean) * (v - mean)) col)
              / np.float_of_nat (List.length col)) /\
  (is_nan std = true \/ (0 <=? std) = true).

(** A computation that prints no structured result. *)
Definition quiet {W A} (c : M W A) : Prop :=
  forall w, json_results (trace_of (c w)) = [].

(** The structured results of [main]. *)
Definition success_json (output_file : string) (mb : float) (n : nat) : event :=
  StdoutJson "JSON_RESULT:"
    [("success", PBool true);
     ("output_file", PStr output_file);
     ("file_size_mb", PFloat (PyNum.round mb 2));
     ("point_count", PInt (Z.of_nat n))].

Definition failure_json (e : py_exception) : event :=
  StdoutJson "JSON_RESULT:"
    [("success", PBool false);
     ("error", PStr (exc_str e))].

(** The three lines printed before the [try] block. *)
Definition banner : trace :=
  [Stdout [Lit PyStr.newline; Lit rule];
   Stdout [Lit "POINT CLOUD ANALYSIS AND REPORT GENERATION"];
   Stdout [Lit rule]].

(** ** Vocabulary of the further properties *)

(** A text made of whitespace only. *)
Fixpoint all_space (s : string) : bool :=
  match s with
  | String c r => PyStr.isspace c && all_space r
  | EmptyString => true
  end.

(** [parts] of the loop body (line 55), for the stripped line. *)
Definition tokens (line : string) : list string :=
  PyStr.split (PyStr.replace_comma (PyStr.strip line)).

(** The test of line 51: the stripped line is empty or a comment. *)
Definition flagged (line : string) : bool :=
  PyStr.is_empty (PyStr.strip line) || PyStr.startswith_hash (PyStr.strip line).

(** The four ways in which the loop body passes over a line. *)
Definition skippable (line : string) : Prop :=
  PyStr.strip line = EmptyString \/
  PyStr.startswith_hash (PyStr.strip line) = true \/
  (List.length (tokens line) < 3)%nat \/
  exists p0 p1 p2 rest,
    tokens line = p0 :: p1 :: p2 :: rest /\
    (PyFloat.float_of_str p0 = None \/ PyFloat.float_of_str p1 = None
     \/ PyFloat.float_of_str p2 = None).

(** The same text with every LF written as CR LF. *)
Fixpoint to_crlf (s : string) : string :=
  match s with
  | String c r =>
      if Ascii.eqb c PyStr.LF then String PyStr.CR (String PyStr.LF (to_crlf r))
      else String c (to_crlf r)
  | EmptyString => EmptyString
  end.

Fixpoint has_cr (s : string) : bool :=
  match s with
  | String c r => Ascii.eqb c PyStr.CR || has_cr r
  | EmptyString => false
  end.

(** Classes of binary64 values by sign: NaN or sign bit clear; NaN, a
    zero of either sign, or positive; and not NaN with sign bit clear. *)
Definition sf_clear (x : spec_float) : bool :=
  match x with
  | S754_nan | S754_zero false | S754_infinity false
  | S754_finite false _ _ => true
  | _ => false
  end.

Definition sf_notneg (x : spec_float) : bool :=
  match x with
  | S754_nan | S754_zero _ | S754_infinity false
  | S754_finite false _ _ => true
  | _ => false
  end.

Definition sf_pos (x : spec_float) : bool :=
  match x with
  | S754_zero false | S754_infinity false | S754_finite false _ _ => true
  | _ => false
  end.

Definition clear (x : float) : Prop := sf_clear (Prim2SF x) = true.
Definition notneg (x : float) : Prop := sf_notneg (Prim2SF x) = true.
Definition pos0 (x : float) : Prop := sf_pos (Prim2SF x) = true.

(** All lanes, or some lane, of the unrolled summation. *)
Definition lanes_all (P : float -> Prop) (r : np.lanes) : Prop :=
  P (np.r0 r) /\ P (np.r1 r) /\ P (np.r2 r) /\ P (np.r3 r) /\
  P (np.r4 r) /\ P (np.r5 r) /\ P (np.r6 r) /\ P (np.r7 r).

Definition lanes_any (z : float) (r : np.lanes) : Prop :=
  np.r0 r = z \/ np.r1 r = z \/ np.r2 r = z \/ np.r3 r = z \/
  np.r4 r = z \/ np.r5 r = z \/ np.r6 r = z \/ np.r7 r = z.

(** One step of the search of [cKDTree.query_point] for the point [x],
    and two states of its pair of best distances: both not negative;
    the nearest one already zero. *)
Definition scan_step (x : Point) (best : float * float) (p : Point)
  : float * float :=
  cKDTree.push best (cKDTree.sqeuclidean x p).

Definition st0 (b : float * float) : Prop := pos0 (fst b) /\ pos0 (snd b).
Definition st1 (b : float * float) : Prop := fst b = 0 /\ pos0 (snd b).

(** The warning of line 398. *)
Definition size_warning : event :=
  Stdout [Lit "[Report] WARNING: File size exceeds 2 MB limit!"].

(** The line the [except] block prints on standard error. *)
Definition error_line (e : py_exception) : event :=
  Stderr [Lit "ERROR: "; Fmt (PStr (exc_str e)) ""].

(** A computation that prints nothing on standard error. *)
Definition calm {W A} (c : M W A) : Prop :=
  forall w, stderr_lines (trace_of (c w)) = [].

Definition status_of {W} (o : trace * termination * W) : termination :=
  snd (fst o).

(** A computation whose successful runs print a structured result as
    their last event. *)
Definition ends_with_result {W A} (c : M W A) : Prop :=
  forall w t a w',
    c w = (t, Val a, w') ->
    exists t0 j, t = (t0 ++ [j])%list /\ is_json j = true.

(** More of the simulated world: a document of [n] bytes, some
    statistics, and 50001 points on the X axis. *)
Definition sim_doc_build_sized (n : Z)
    (output_path original_filename : string) (stats : Stats)
    (avg : float) (h v : unit) : extern Sim.World unit :=
  fun w => (Val tt, Sim.mkWorld (Sim.files w) ((output_path, n) :: Sim.sizes w)
                                (Sim.draws w) (Sim.faults w)).

Definition sim_stats : Stats :=
  mkStats 3 0 1 0 1 0 0 1 1 0 (1 / 3) (1 / 3) 0 (1 / 2) (1 / 2) 0.

Definition many_points : PointSet :=
  map (fun i => mkPoint (np.float_of_nat i) 0 0) (seq 0 (S vis_limit)).

(** * Properties *)

Local Open Scope list_scope.

Section Facts.

Variable World : Type.
Variable fs_read : World -> string -> result string.
Variable os_getsize : World -> string -> result Z.
Variable os_path_basename : string -> string.
Variable np_random_choice : nat -> nat -> bool -> extern World (list nat).
Variable Buffer : Type.
Variable plt_histogram : list float -> Z -> extern World Buffer.
Variable plt_scatter3d : PointSet -> Z -> extern World Buffer.
Variable doc_build :
  string -> string -> Stats -> float -> Buffer -> Buffer -> extern World unit.

Local Abbreviation parse_file := (parse_xyz_file World fs_read os_path_basename).
Local Abbreviation statistics := (calculate_statistics World).
Local Abbreviation nearest := (calculate_nearest_neighbor_distance World np_random_choice).
Local Abbreviation run_main :=
  (main World fs_read os_getsize os_path_basename np_random_choice Buffer
        plt_histogram plt_scatter3d doc_build).

(** *** The parser *)

Lemma parse_line_blank (line : string) :
  PyStr.strip line = EmptyString -> parse_line line = None.
Proof. intros H. unfold parse_line. rewrite H. reflexivity. Qed.

Lemma parse_line_comment (line : string) :
  PyStr.startswith_hash (PyStr.strip line) = true -> parse_line line = None.
Proof.
  intros H. unfold parse_line. rewrite H.
  now rewrite orb_true_r.
Qed.

Lemma parse_line_short (line : string) :
  (List.length (PyStr.split (PyStr.replace_comma (PyStr.strip line))) < 3)%nat ->
  parse_line line = None.
Proof.
  intros H. unfold parse_line.
  destruct (_ || _); [reflexivity|].
  destruct (PyStr.split _) as [|p0 [|p1 [|p2 ps]]]; try reflexivity.
  simpl in H. lia.
Qed.

Lemma parse_line_bad_number (line p0 p1 p2 : string) (rest : list string) :
  PyStr.split (PyStr.replace_comma (PyStr.strip line)) = p0 :: p1 :: p2 :: rest ->
  PyFloat.float_of_str p0 = None \/ PyFloat.float_of_str p1 = None
    \/ PyFloat.float_of_str p2 = None ->
  parse_line line = None.
Proof.
  intros Hs H. unfold parse_line. rewrite Hs.
  destruct (_ || _); [reflexivity|].
  destruct (PyFloat.float_of_str p0), (PyFloat.float_of_str p1),
    (PyFloat.float_of_str p2); try reflexivity.
  destruct H as [H|[H|H]]; discriminate.
Qed.

Lemma parse_lines_none (lines : list string) :
  (forall line, In line lines -> parse_line line = None) ->
  parse_lines lines = [].
Proof.
  induction lines as [|l ls IH]; intros H; [reflexivity|].
  simpl. rewrite (H l (or_introl eq_refl)).
  apply IH. intros line Hin. apply H. now right.
Qed.

(** C1: the end-to-end example. The file with the lines "0 0 0",
    "1 0 0", "0 1 0", "# comment", "" and "bad data here" parses to
    exactly three points; the extents are 1.0, 1.0 and 0.0; the average
    nearest-neighbour distance is exactly 1.0. *)
Theorem example_end_to_end (w : World) (path : string) :
  fs_read w path = Val Sim.example_text ->
  exists t1 t2 t3 stats,
    parse_file path w = (t1, Val example_points, w) /\
    List.length example_points = 3%nat /\
    statistics example_points w = (t2, Val stats, w) /\
    x_extent stats = 1 /\ y_extent stats = 1 /\ z_extent stats = 0 /\
    nearest example_points 1000 w = (t3, Val 1, w).
Proof.
  intros H.
  do 4 eexists.
  split.
  { unfold parse_xyz_file, bind, inspect, print, emit. rewrite H.
    vm_compute. reflexivity. }
  split; [reflexivity|].
  split; [vm_compute; reflexivity|].
  repeat split; vm_compute; reflexivity.
Qed.

(** C5 (as amended): when no line of the file yields a point (comments,
    blank lines, lines with fewer than three tokens or with a token that
    is not a number), parsing raises [ValueError] with the message
    "No valid points found in file"; and parsing never returns an empty
    point set. *)
Theorem parse_no_valid_points (w : World) (path text : string) :
  fs_read w path = Val text ->
  (forall line, In line (PyStr.readlines text) -> parse_line line = None) ->
  value_of (parse_file path w) = Raise no_valid_points /\
  exc_type no_valid_points = "ValueError" /\
  exc_str no_valid_points = "No valid points found in file" /\
  (forall w2 path2 points,
      value_of (parse_file path2 w2) = Val points -> points <> []).
Proof.
  intros Hread Hnone.
  repeat split.
  - unfold parse_xyz_file, bind, inspect, print, emit, value_of.
    rewrite Hread. cbn. rewrite (parse_lines_none _ Hnone). reflexivity.
  - intros w2 path2 points.
    unfold parse_xyz_file, bind, inspect, print, emit, value_of. cbn.
    destruct (fs_read w2 path2) as [text2|e]; cbn; [|discriminate].
    destruct (parse_lines (PyStr.readlines text2)) as [|p ps]; cbn.
    + discriminate.
    + intros Heq. inversion Heq. discriminate.
Qed.

(** *** Runs of the monad *)

Lemma bind_inv {A B} (c : M World A) (k : A -> M World B) w t r w' :
  bind c k w = (t, r, w') ->
  (exists e, c w = (t, Raise e, w') /\ r = Raise e) \/
  (exists t1 a w1 t2,
      c w = (t1, Val a, w1) /\ k a w1 = (t2, r, w') /\ t = (t1 ++ t2)%list).
Proof.
  unfold bind. destruct (c w) as [[t1 [a|e]] w1].
  - destruct (k a w1) as [[t2 r2] w2] eqn:Hk. intros H. inversion H; subst.
    right. now exists t1, a, w1, t2.
  - intros H. inversion H; subst. left. now exists e.
Qed.

(** An exception raised by the first part of a sequence is the outcome
    of the sequence; after a value the rest runs. *)
Lemma bind_raise {A B} (c : M World A) (k : A -> M World B) w t e w' :
  c w = (t, Raise e, w') -> bind c k w = (t, Raise e, w').
Proof. intros H. unfold bind. now rewrite H. Qed.

Lemma bind_val {A B} (c : M World A) (k : A -> M World B) w t a w' :
  c w = (t, Val a, w') ->
  bind c k w = (let '(t2, r, w2) := k a w' in (t ++ t2, r, w2)).
Proof. intros H. unfold bind. now rewrite H. Qed.

Lemma json_results_app (a b : trace) :
  json_results (a ++ b) = (json_results a ++ json_results b)%list.
Proof. apply filter_app. Qed.

Lemma quiet_at {A} (c : M World A) w t r w' :
  c w = (t, r, w') -> quiet c -> json_results t = [].
Proof. intros H Hq. specialize (Hq w). now rewrite H in Hq. Qed.

Lemma quiet_ret {A} (a : A) : quiet (W := World) (ret a).
Proof. intros w. reflexivity. Qed.

Lemma quiet_raise {A} (e : py_exception) : quiet (W := World) (A := A) (raise e).
Proof. intros w. reflexivity. Qed.

Lemma quiet_lift {A} (r : result A) : quiet (W := World) (lift r).
Proof. intros w. reflexivity. Qed.

Lemma quiet_print (line : list piece) : quiet (W := World) (print line).
Proof. intros w. reflexivity. Qed.

Lemma quiet_call {A} (f : extern World A) : quiet (call f).
Proof. intros w. unfold call. now destruct (f w). Qed.

Lemma quiet_inspect {A} (f : World -> result A) : quiet (inspect f).
Proof. intros w. reflexivity. Qed.

Lemma quiet_bind {A B} (c : M World A) (k : A -> M World B) :
  quiet c -> (forall a, quiet (k a)) -> quiet (bind c k).
Proof.
  intros Hc Hk w. unfold bind.
  pose proof (Hc w) as H1.
  destruct (c w) as [[t1 [a|e]] w1]; unfold trace_of in H1; cbn [fst] in H1.
  - pose proof (Hk a w1) as H2.
    destruct (k a w1) as [[t2 r2] w2].
    unfold trace_of in H2 |- *. cbn [fst] in H2 |- *.
    now rewrite json_results_app, H1, H2.
  - exact H1.
Qed.

Lemma quiet_if {A} (b : bool) (c1 c2 : M World A) :
  quiet c1 -> quiet c2 -> quiet (if b then c1 else c2).
Proof. now destruct b. Qed.

Create HintDb quiet.

#[local] Hint Resolve quiet_ret quiet_raise quiet_lift quiet_print quiet_call
  quiet_inspect quiet_bind quiet_if : quiet.

Lemma quiet_parse (path : string) : quiet (parse_file path).
Proof. unfold parse_xyz_file. auto 10 with quiet. Qed.

Lemma quiet_statistics (points : PointSet) : quiet (statistics points).
Proof. unfold calculate_statistics. auto 20 with quiet. Qed.

Lemma quiet_nearest (points : PointSet) (n : nat) : quiet (nearest points n).
Proof.
  unfold calculate_nearest_neighbor_distance, sample. auto 20 with quiet.
Qed.

Lemma quiet_histogram (points : PointSet) (dpi : Z) :
  quiet (create_z_histogram World Buffer plt_histogram points dpi).
Proof. unfold create_z_histogram. auto 10 with quiet. Qed.

Lemma quiet_visualization (points : PointSet) (dpi : Z) :
  quiet (create_3d_visualization World np_random_choice Buffer plt_scatter3d
                                 points dpi).
Proof.
  unfold create_3d_visualization, downsample. auto 20 with quiet.
Qed.

Lemma quiet_report points stats avg h v out name :
  quiet (generate_pdf_report World os_getsize Buffer doc_build
                             points stats avg h v out name).
Proof.
  unfold generate_pdf_report, getsize. auto 20 with quiet.
Qed.

Lemma quiet_getsize (path : string) : quiet (getsize World os_getsize path).
Proof. unfold getsize. auto with quiet. Qed.

#[local] Hint Resolve quiet_parse quiet_statistics quiet_nearest quiet_histogram
  quiet_visualization quiet_report quiet_getsize : quiet.

(** *** Floating-point facts *)

(** The splitting of the pairwise summation never runs out of fuel when
    the fuel is at least the length of the array. *)
Lemma pairwise_sum_fuel (f1 f2 : nat) (a : list float) :
  (List.length a <= f1)%nat -> (List.length a <= f2)%nat ->
  np.pairwise_sum f1 a = np.pairwise_sum f2 a.
Proof.
  revert f2 a. induction f1 as [|f1 IH]; intros f2 a H1 H2.
  - destruct a; [|cbn in H1; lia]. destruct f2; reflexivity.
  - destruct f2 as [|f2].
    + destruct a; [reflexivity|cbn in H2; lia].
    + cbn [np.pairwise_sum].
      destruct (Nat.ltb_spec (List.length a) 8); [reflexivity|].
      destruct (Nat.leb_spec (List.length a) 128); [reflexivity|].
      set (n := List.length a) in *.
      set (n2 := (n / 2 - (n / 2) mod 8)%nat).
      assert (Hdiv : (2 * (n / 2) <= n)%nat)
        by (apply Nat.Div0.mul_div_le).
      assert (Hhalf : (64 <= n / 2)%nat)
        by (apply Nat.div_le_lower_bound; lia).
      assert (Hmod : ((n / 2) mod 8 < 8)%nat)
        by (apply Nat.mod_upper_bound; lia).
      assert (Hn2 : (0 < n2 /\ n2 < n)%nat) by (unfold n2; lia).
      f_equal; apply IH.
      * rewrite length_firstn. fold n. lia.
      * rewrite length_firstn. fold n. lia.
      * rewrite length_skipn. fold n. lia.
      * rewrite length_skipn. fold n. lia.
Qed.

(** The order on binary64 values, through their specification. *)
Ltac sf_cases :=
  repeat match goal with
  | H : context [Z.compare ?x ?y] |- _ => destruct (Z.compare_spec x y)
  | |- context [Z.compare ?x ?y] => destruct (Z.compare_spec x y)
  | H : context [Pos.compare_cont Eq ?x ?y] |- _ =>
      change (Pos.compare_cont Eq x y) with (Pos.compare x y) in *;
      destruct (Pos.compare_spec x y)
  | |- context [Pos.compare_cont Eq ?x ?y] =>
      change (Pos.compare_cont Eq x y) with (Pos.compare x y) in *;
      destruct (Pos.compare_spec x y)
  end.

Lemma SFleb_trans (a b c : spec_float) :
  SFleb a b = true -> SFleb b c = true -> SFleb a c = true.
Proof.
  unfold SFleb, SFcompare.
  destruct a as [sa|sa| |sa ma ea]; destruct b as [sb|sb| |sb mb eb];
    destruct c as [sc|sc| |sc mc ec];
    try destruct sa; try destruct sb; try destruct sc;
    try reflexivity; try discriminate; intros H1 H2;
    sf_cases; subst; cbn in *; try reflexivity; try discriminate; try lia.
Qed.

Lemma SFleb_total (a b : spec_float) :
  a <> S754_nan -> b <> S754_nan -> SFleb a b = false -> SFleb b a = true.
Proof.
  unfold SFleb, SFcompare.
  destruct a as [sa|sa| |sa ma ea]; destruct b as [sb|sb| |sb mb eb];
    try destruct sa; try destruct sb;
    try reflexivity; try discriminate; try congruence; intros Ha Hb H1;
    sf_cases; subst; cbn in *; try reflexivity; try discriminate; try lia.
Qed.

Lemma SFleb_refl (a : spec_float) : a <> S754_nan -> SFleb a a = true.
Proof.
  unfold SFleb, SFcompare.
  destruct a as [sa|sa| |sa ma ea]; try destruct sa; try reflexivity;
    try congruence; intros _;
    rewrite Z.compare_refl;
    change (Pos.compare_cont Eq ma ma) with (Pos.compare ma ma);
    rewrite Pos.compare_refl; reflexivity.
Qed.

Lemma not_nan_spec (x : float) : is_nan x = false -> Prim2SF x <> S754_nan.
Proof.
  unfold is_nan. rewrite eqb_spec. intros H E. rewrite E in H. discriminate.
Qed.

Lemma leb_trans (x y z : float) :
  (x <=? y) = true -> (y <=? z) = true -> (x <=? z) = true.
Proof. rewrite !leb_spec. apply SFleb_trans. Qed.

Lemma leb_total (x y : float) :
  is_nan x = false -> is_nan y = false -> (x <=? y) = false -> (y <=? x) = true.
Proof.
  intros Hx Hy. rewrite !leb_spec.
  apply SFleb_total; now apply not_nan_spec.
Qed.

Lemma leb_refl (x : float) : is_nan x = false -> (x <=? x) = true.
Proof.
  intros Hx. rewrite leb_spec. apply SFleb_refl. now apply not_nan_spec.
Qed.

Lemma SFltb_leb (a b : spec_float) : SFltb a b = true -> SFleb a b = true.
Proof. unfold SFltb, SFleb. now destruct (SFcompare a b) as [[]|]. Qed.

Lemma SFltb_total (a b : spec_float) :
  a <> S754_nan -> b <> S754_nan -> SFltb a b = false -> SFleb b a = true.
Proof.
  unfold SFltb, SFleb, SFcompare.
  destruct a as [sa|sa| |sa ma ea]; destruct b as [sb|sb| |sb mb eb];
    try destruct sa; try destruct sb;
    try reflexivity; try discriminate; try congruence; intros Ha Hb H1;
    sf_cases; subst; cbn in *; try reflexivity; try discriminate; try lia.
Qed.

Lemma ltb_leb (x y : float) : (x <? y) = true -> (x <=? y) = true.
Proof. rewrite ltb_spec, leb_spec. apply SFltb_leb. Qed.

Lemma ltb_total (x y : float) :
  is_nan x = false -> is_nan y = false -> (x <? y) = false -> (y <=? x) = true.
Proof.
  intros Hx Hy. rewrite ltb_spec, leb_spec.
  apply SFltb_total; now apply not_nan_spec.
Qed.

(** [np.min] is a lower bound, [np.max] an upper bound, of an array
    without NaN. *)
Lemma fold_minimum_lower (r : list float) (acc : float) :
  no_nan r -> is_nan acc = false ->
  (fold_left np.minimum r acc <=? acc) = true /\
  (forall v, In v r -> (fold_left np.minimum r acc <=? v) = true).
Proof.
  intros Hr. revert acc. induction Hr as [|y r Hy _ IH]; intros acc Ha.
  - split; [now apply leb_refl|intros v []].
  - cbn [fold_left].
    assert (Hstep : is_nan (np.minimum acc y) = false /\
                    (np.minimum acc y <=? acc) = true /\
                    (np.minimum acc y <=? y) = true).
    { unfold np.minimum. rewrite Ha, orb_false_r.
      destruct (acc <? y) eqn:E.
      - split; [exact Ha|]. split; [now apply leb_refl|now apply ltb_leb].
      - split; [exact Hy|]. split; [now apply ltb_total|now apply leb_refl]. }
    destruct Hstep as (Hn & Hacc & Hy').
    destruct (IH _ Hn) as (Hm & Hall).
    split; [now apply leb_trans with (y := np.minimum acc y)|].
    intros v [<-|Hin]; [|now apply Hall].
    now apply leb_trans with (y := np.minimum acc y).
Qed.

Lemma fold_maximum_upper (r : list float) (acc : float) :
  no_nan r -> is_nan acc = false ->
  (acc <=? fold_left np.maximum r acc) = true /\
  (forall v, In v r -> (v <=? fold_left np.maximum r acc) = true).
Proof.
  intros Hr. revert acc. induction Hr as [|y r Hy _ IH]; intros acc Ha.
  - split; [now apply leb_refl|intros v []].
  - cbn [fold_left].
    assert (Hstep : is_nan (np.maximum acc y) = false /\
                    (acc <=? np.maximum acc y) = true /\
                    (y <=? np.maximum acc y) = true).
    { unfold np.maximum. rewrite Ha, orb_false_r.
      destruct (y <? acc) eqn:E.
      - split; [exact Ha|]. split; [now apply leb_refl|now apply ltb_leb].
      - split; [exact Hy|]. split; [now apply ltb_total|now apply leb_refl]. }
    destruct Hstep as (Hn & Hacc & Hy').
    destruct (IH _ Hn) as (Hm & Hall).
    split; [now apply leb_trans with (y := np.maximum acc y)|].
    intros v [<-|Hin]; [|now apply Hall].
    now apply leb_trans with (y := np.maximum acc y).
Qed.

Lemma min_max_bounds (x : float) (r : list float) (v : float) :
  no_nan (x :: r) -> In v (x :: r) ->
  (fold_left np.minimum r x <=? v) = true /\
  (v <=? fold_left np.maximum r x) = true.
Proof.
  intros Hn Hin. inversion Hn as [|? ? Hx Hr]; subst.
  destruct (fold_minimum_lower r x Hr Hx) as (Hlo & Hlos).
  destruct (fold_maximum_upper r x Hr Hx) as (Hup & Hups).
  destruct Hin as [<-|Hin]; split; auto.
Qed.

Lemma sqrt_nan_or_nonneg (x : float) :
  is_nan (sqrt x) = true \/ (0 <=? sqrt x) = true.
Proof.
  unfold is_nan. rewrite eqb_spec, leb_spec, sqrt_spec.
  change (Prim2SF 0) with (S754_zero false).
  unfold SF64sqrt, SFsqrt.
  destruct (Prim2SF x) as [s|s| |s m e]; try destruct s; cbn; auto.
  destruct (SFsqrt_core_binary prec emax (Zpos m) e) as [[mz ez] lz].
  unfold binary_round_aux.
  destruct (shr_fexp prec emax mz ez lz) as [mrs e'].
  destruct (shr_fexp prec emax _ e' loc_Exact) as [mrs2 e2].
  destruct (shr_m mrs2); cbn; auto.
  destruct (Z.leb e2 _); cbn; auto.
Qed.

Lemma std_nan_or_nonneg (a : list float) :
  is_nan (np.std a) = true \/ (0 <=? np.std a) = true.
Proof. apply sqrt_nan_or_nonneg. Qed.

(** *** Axis statistics *)

Lemma statistics_runs (points : PointSet) (w : World) :
  points <> [] -> exists t stats, statistics points w = (t, Val stats, w).
Proof.
  intros Hne. destruct points as [|p ps]; [congruence|].
  do 2 eexists. reflexivity.
Qed.

Lemma statistics_count (points : PointSet) (w w' : World) t stats :
  statistics points w = (t, Val stats, w') -> count stats = List.length points.
Proof.
  destruct points as [|p ps]; [discriminate|].
  intros H. inversion H. reflexivity.
Qed.

(** C6 (as amended): for every non-empty point set the statistics are
    computed without error and, on each axis: when no coordinate is NaN,
    min <= every coordinate <= max; extent = max - min (one binary64
    subtraction); the mean is the NumPy sum divided by N; the standard
    deviation is the population one, the square root of the sum of
    squared deviations divided by N, and it is NaN or at least 0. *)
Theorem statistics_spec (points : PointSet) (w : World) :
  points <> [] ->
  exists t stats,
    statistics points w = (t, Val stats, w) /\
    count stats = List.length points /\
    axis_spec (map px points) (x_min stats) (x_max stats) (x_extent stats)
              (x_mean stats) (x_std stats) /\
    axis_spec (map py points) (y_min stats) (y_max stats) (y_extent stats)
              (y_mean stats) (y_std stats) /\
    axis_spec (map pz points) (z_min stats) (z_max stats) (z_extent stats)
              (z_mean stats) (z_std stats).
Proof.
  intros Hne. destruct points as [|p ps]; [congruence|].
  do 2 eexists. split; [reflexivity|].
  cbn [count x_min x_max x_extent x_mean x_std y_min y_max y_extent y_mean
       y_std z_min z_max z_extent z_mean z_std].
  split; [reflexivity|].
  unfold axis_spec.
  repeat match goal with |- _ /\ _ => split end;
    try reflexivity; try apply std_nan_or_nonneg;
    intros Hn v Hin; exact (min_max_bounds _ _ v Hn Hin).
Qed.

(** *** Sampling *)

Lemma take_in_range {A} (points : list A) (indices : list nat) :
  Forall (fun i => (i < List.length points)%nat) indices ->
  exists ws,
    take points indices = Val ws /\
    Forall2 (fun i p => nth_error points i = Some p) indices ws.
Proof.
  induction 1 as [|i rest Hi _ IH].
  - exists []. split; [reflexivity|constructor].
  - destruct IH as (ws & Hws & Hsel).
    destruct (nth_error points i) as [p|] eqn:Hp.
    + exists (p :: ws). split.
      * cbn. now rewrite Hp, Hws.
      * now constructor.
    + apply nth_error_None in Hp. lia.
Qed.

Lemma sample_small (points : PointSet) (sample_size : nat) (w : World) :
  (List.length points <= sample_size)%nat ->
  sample World np_random_choice points sample_size w = ([], Val points, w).
Proof.
  intros Hle. unfold sample.
  destruct (Nat.ltb_spec sample_size (List.length points)); [lia|reflexivity].
Qed.




(** X11: the 3D view shows the downsampled points. For a point set of
    more than 50000 points, given that
    [np.random.choice(N, 50000, replace=False)] returns 50000 positions
    below N, the scatter plot receives exactly [points[indices]]:
    50000 points, one per drawn position in drawn order, fewer than
    were parsed; a point set of at most 50000 points is plotted whole.
    What the plot returns or raises is what the stage returns or
    raises. *)
Theorem downsampled_view (points : PointSet) (w : World)
    (indices : list nat) (w' : World) :
  ((vis_limit < List.length points)%nat ->
   np_random_choice (List.length points) vis_limit false w = (Val indices, w') /\
   valid_draw (List.length points) vis_limit indices) ->
  exists vis_points,
    value_of (downsample World np_random_choice points w) = Val vis_points /\
    (if (vis_limit <? List.length points)%nat then
       List.length vis_points = vis_limit /\
       (List.length vis_points < List.length points)%nat /\
       Forall2 (fun i p => nth_error points i = Some p) indices vis_points
     else vis_points = points) /\
    forall dpi,
      value_of (create_3d_visualization World np_random_choice Buffer
                  plt_scatter3d points dpi w)
        = fst (plt_scatter3d vis_points dpi
                 (if (vis_limit <? List.length points)%nat then w' else w)) /\
      snd (create_3d_visualization World np_random_choice Buffer
             plt_scatter3d points dpi w)
        = snd (plt_scatter3d vis_points dpi
                 (if (vis_limit <? List.length points)%nat then w' else w)).
Proof.
  intros Hdraw.
  assert (Hview : forall vs t w1,
    downsample World np_random_choice points w = (t, Val vs, w1) ->
    forall dpi,
      value_of (create_3d_visualization World np_random_choice Buffer
                  plt_scatter3d points dpi w)
        = fst (plt_scatter3d vs dpi w1) /\
      snd (create_3d_visualization World np_random_choice Buffer
             plt_scatter3d points dpi w)
        = snd (plt_scatter3d vs dpi w1)).
  { intros vs t w1 Hrun dpi.
    assert (Hfull : exists t',
      create_3d_visualization World np_random_choice Buffer plt_scatter3d
                              points dpi w
      = (t', fst (plt_scatter3d vs dpi w1), snd (plt_scatter3d vs dpi w1))).
    { unfold create_3d_visualization.
      unfold bind at 1. cbn [print emit].
      unfold bind at 1. rewrite Hrun.
      unfold bind, call, print, emit, ret.
      destruct (plt_scatter3d vs dpi w1) as [[buf|e] w2]; cbn;
        eexists; reflexivity. }
    destruct Hfull as (t' & ->). split; reflexivity. }
  destruct (Nat.ltb_spec vis_limit (List.length points)) as [Hlt|Hle].
  - destruct (Hdraw Hlt) as (Hcall & Hlen & _ & Hrange).
    destruct (take_in_range points indices Hrange) as (vs & Hvs & Hsel).
    assert (Hrun : exists t,
      downsample World np_random_choice points w = (t, Val vs, w')).
    { unfold downsample.
      destruct (Nat.ltb_spec vis_limit (List.length points)); [|lia].
      unfold bind, call, lift, print, emit, ret.
      rewrite Hcall, Hvs. eexists. reflexivity. }
    destruct Hrun as (t & Hrun).
    assert (Hl : List.length vs = vis_limit)
      by (rewrite <- (Forall2_length Hsel); exact Hlen).
    exists vs. split; [unfold value_of; now rewrite Hrun|].
    split; [|exact (Hview vs t w' Hrun)].
    split; [exact Hl|]. split; [lia|exact Hsel].
  - assert (Hrun : downsample World np_random_choice points w
                   = ([], Val points, w)).
    { unfold downsample.
      destruct (Nat.ltb_spec vis_limit (List.length points)); [lia|reflexivity]. }
    exists points. split; [unfold value_of; now rewrite Hrun|].
    split; [reflexivity|exact (Hview points [] w Hrun)].
Qed.

(** *** The nearest-neighbour average *)

Lemma push_one (d : float) :
  snd (cKDTree.push (infinity, infinity) d) = infinity.
Proof.
  unfold cKDTree.push. destruct (d <? infinity); reflexivity.
Qed.

Lemma single_point_working_set (p : Point) :
  average_nearest [p] =
  if cKDTree.finite_point p then Val infinity else Raise not_finite.
Proof.
  unfold average_nearest, cKDTree.build, cKDTree.query, cKDTree.all_finite.
  cbn [forallb]. rewrite andb_true_r.
  destruct (cKDTree.finite_point p); [|reflexivity].
  cbn [map]. unfold cKDTree.query_point. cbn [cKDTree.data fold_left].
  pose proof (push_one (cKDTree.sqeuclidean p p)) as H.
  destruct (cKDTree.push (infinity, infinity) (cKDTree.sqeuclidean p p))
    as [m1 m2].
  cbn [snd] in H |- *. subst m2.
  reflexivity.
Qed.

(** What the code does on a working set of exactly one point: no
    error is raised for the missing neighbour; when the point is finite
    the k=2 query reports the second neighbour at infinite distance and
    the average returned is +infinity; a non-finite point is refused by
    the index with [ValueError]. *)
Lemma single_point_average (p : Point) (sample_size : nat) (w : World) :
  (1 <= sample_size)%nat ->
  average_nearest [p]
    = (if cKDTree.finite_point p then Val infinity else Raise not_finite) /\
  value_of (nearest [p] sample_size w)
    = (if cKDTree.finite_point p then Val infinity else Raise not_finite).
Proof.
  intros Hk. split; [apply single_point_working_set|].
  unfold calculate_nearest_neighbor_distance.
  unfold bind at 1. cbn [print emit].
  unfold bind at 1. rewrite sample_small by (cbn; lia).
  cbn [app]. unfold bind, lift, print, emit, ret, value_of.
  rewrite single_point_working_set.
  destruct (cKDTree.finite_point p); reflexivity.
Qed.

Lemma average_nearest_not_finite (ws : PointSet) :
  cKDTree.all_finite ws = false -> average_nearest ws = Raise not_finite.
Proof.
  intros H. unfold average_nearest, cKDTree.build. now rewrite H.
Qed.

(** *** Non-finite coordinates *)

Lemma parse_lines_app (l1 l2 : list string) :
  parse_lines (l1 ++ l2) = (parse_lines l1 ++ parse_lines l2)%list.
Proof.
  induction l1 as [|l ls IH]; [reflexivity|].
  cbn. destruct (parse_line l); cbn; now rewrite IH.
Qed.

Lemma all_finite_in (ws : PointSet) (p : Point) :
  In p ws -> cKDTree.finite_point p = false -> cKDTree.all_finite ws = false.
Proof.
  intros Hin Hp. unfold cKDTree.all_finite.
  destruct (forallb cKDTree.finite_point ws) eqn:E; [|reflexivity].
  rewrite forallb_forall in E. rewrite (E p Hin) in Hp. discriminate.
Qed.

(** C10 (as amended): a data line whose first three tokens are accepted
    by [float()] becomes a point whatever the values are, so "nan",
    "inf", "-inf" and "infinity" put non-finite coordinates into the
    point set. On such a set the axis statistics are still computed
    without any error, but the nearest-neighbour computation raises
    [ValueError] as soon as its working set holds a non-finite point. *)
Theorem nonfinite_line_accepted (line p0 p1 p2 : string) (rest : list string)
    (x y z : float) :
  PyStr.is_empty (PyStr.strip line) = false ->
  PyStr.startswith_hash (PyStr.strip line) = false ->
  PyStr.split (PyStr.replace_comma (PyStr.strip line)) = p0 :: p1 :: p2 :: rest ->
  PyFloat.float_of_str p0 = Some x ->
  PyFloat.float_of_str p1 = Some y ->
  PyFloat.float_of_str p2 = Some z ->
  parse_line line = Some (mkPoint x y z) /\
  (forall before after,
      In (mkPoint x y z) (parse_lines (before ++ line :: after))) /\
  (forall points w,
      In (mkPoint x y z) points ->
      exists t stats, statistics points w = (t, Val stats, w)) /\
  (cKDTree.finite_point (mkPoint x y z) = false ->
   forall ws, In (mkPoint x y z) ws -> average_nearest ws = Raise not_finite).
Proof.
  intros He Hc Hs H0 H1 H2.
  assert (Hline : parse_line line = Some (mkPoint x y z)).
  { unfold parse_line. rewrite He, Hc, Hs, H0, H1, H2. reflexivity. }
  repeat split.
  - exact Hline.
  - intros before after. rewrite parse_lines_app. apply in_or_app. right.
    cbn. rewrite Hline. now left.
  - intros points w Hin. apply statistics_runs. intros ->. contradiction.
  - intros Hnf ws Hin. apply average_nearest_not_finite.
    now apply all_finite_in with (p := mkPoint x y z).
Qed.

(** *** The command line *)

(** C3 (as amended): with fewer than two positional arguments the
    program prints the usage line on standard output (nothing on
    standard error), exits with status 1, and does nothing else: no file
    is read and the world is unchanged. *)
Theorem usage_error (argv : list string) (w : World) :
  (List.length argv < 3)%nat ->
  run_main argv w = ([Stdout usage], Exit 1, w) /\
  stderr_lines (trace_of (run_main argv w)) = [].
Proof.
  intros H. unfold main.
  destruct (Nat.ltb_spec (List.length argv) 3); [|lia].
  split; reflexivity.
Qed.

(** *** The orchestrator *)

Local Abbreviation body :=
  (main_body World fs_read os_getsize os_path_basename np_random_choice Buffer
             plt_histogram plt_scatter3d doc_build).

(** One step through a [bind] of the [try] block whose first part is
    quiet: either that part raised, or the run continues. *)
Ltac through_as H a :=
  let e := fresh "e" in
  let t1 := fresh "t" in
  let t2 := fresh "t" in
  let w1 := fresh "w" in
  let H1 := fresh "Hrun" in
  let Hr := fresh "Hr" in
  let Hq := fresh "Hq" in
  apply bind_inv in H
    as [(e & H1 & Hr) | (t1 & a & w1 & t2 & H1 & H & ->)];
  [ try discriminate Hr;
    try (apply quiet_at in H1; [exact H1|auto 20 with quiet])
  | pose proof H1 as Hq;
    apply quiet_at in Hq; [|auto 20 with quiet];
    rewrite json_results_app, Hq; cbn [app]; clear Hq ].

Ltac through H := let a := fresh "a" in through_as H a.

Lemma main_body_raise input_file output_file w t e w' :
  body input_file output_file w = (t, Raise e, w') -> json_results t = [].
Proof.
  unfold main_body. intros H.
  do 11 (through H).
  cbn in H. discriminate.
Qed.

Lemma main_body_val input_file output_file w t st w' :
  body input_file output_file w = (t, Val st, w') ->
  st = Exit 0 /\
  exists points size mb,
    value_of (parse_file input_file w) = Val points /\
    os_getsize w' output_file = Val size /\
    PyNum.int_truediv size 1048576 = Val mb /\
    json_results t = [success_json output_file mb (List.length points)].
Proof.
  unfold main_body. intros H.
  through_as H points.
  assert (Hparse : value_of (parse_file input_file w) = Val points)
    by (unfold value_of; now rewrite Hrun).
  through_as H stats.
  pose proof (statistics_count _ _ _ _ _ Hrun0) as Hcount.
  do 7 (through H).
  through_as H size.
  apply bind_inv in H
    as [(e & _ & Hr) | (tm & mb & wm & tj & Hdiv & H & ->)];
    [discriminate Hr|].
  cbn in H. inversion H; subst.
  split; [reflexivity|].
  exists points, size, mb.
  unfold getsize, inspect in Hrun8. inversion Hrun8; subst.
  unfold lift in Hdiv. inversion Hdiv; subst.
  repeat split; trivial.
  rewrite Hcount. reflexivity.
Qed.

Lemma main_run (argv : list string) (w : World) :
  (3 <= List.length argv)%nat ->
  run_main argv w =
  match body (nth 1 argv "") (nth 2 argv "") w with
  | (t, Val st, w') => (banner ++ t, st, w')
  | (t, Raise e, w') =>
      (banner ++ t ++ [Stderr [Lit "ERROR: "; Fmt (PStr (exc_str e)) ""];
                       failure_json e], Exit 1, w')
  end.
Proof.
  intros H. unfold main.
  destruct (Nat.ltb_spec (List.length argv) 3); [lia|].
  unfold bind, print, emit, try_except, main_handler, ret. cbn.
  destruct (body _ _ w) as [[t [st|e]] w']; reflexivity.
Qed.

(** C8: whatever exception a stage of the pipeline raises (parsing,
    statistics, rendering, assembly), [main] catches it, prints the
    error on standard error, prints exactly one structured result,
    tagged "JSON_RESULT:", with success = false and the message of the
    exception, and exits with status 1; and no run of [main] ends with
    an uncaught exception. *)
Theorem failure_reported (argv : list string) (w : World) t e w' :
  (3 <= List.length argv)%nat ->
  body (nth 1 argv "") (nth 2 argv "") w = (t, Raise e, w') ->
  run_main argv w =
    (banner ++ t ++ [Stderr [Lit "ERROR: "; Fmt (PStr (exc_str e)) ""];
                     failure_json e], Exit 1, w') /\
  json_results (trace_of (run_main argv w)) = [failure_json e] /\
  (forall argv2 w2, exists status,
      snd (fst (run_main argv2 w2)) = Exit status).
Proof.
  intros Hargs Hbody. split; [|split].
  - rewrite main_run by exact Hargs. now rewrite Hbody.
  - rewrite main_run by exact Hargs. rewrite Hbody.
    unfold trace_of. cbn [fst].
    rewrite !json_results_app, (main_body_raise _ _ _ _ _ _ Hbody).
    reflexivity.
  - intros argv2 w2.
    destruct (Nat.ltb_spec (List.length argv2) 3) as [Hlt|Hge].
    + exists 1%Z. unfold main.
      destruct (Nat.ltb_spec (List.length argv2) 3); [reflexivity|lia].
    + rewrite main_run by exact Hge.
      destruct (body _ _ w2) as [[t2 [st|e2]] w3] eqn:Hb.
      * destruct (main_body_val _ _ _ _ _ _ Hb) as [-> _]. now exists 0%Z.
      * now exists 1%Z.
Qed.

(** C9: when every stage succeeds, [main] prints exactly one structured
    result, tagged "JSON_RESULT:", holding success = true, the output
    path, the size of the written file in megabytes rounded to two
    decimals, and the number of parsed points (the length of the parsed
    point set, whatever the 3D view was downsampled to); the process
    ends with status 0. *)
Theorem success_reported (argv : list string) (w : World) t st w' :
  (3 <= List.length argv)%nat ->
  body (nth 1 argv "") (nth 2 argv "") w = (t, Val st, w') ->
  exists points size mb,
    value_of (parse_file (nth 1 argv "") w) = Val points /\
    os_getsize w' (nth 2 argv "") = Val size /\
    PyNum.int_truediv size 1048576 = Val mb /\
    run_main argv w = (banner ++ t, Exit 0, w') /\
    json_results (trace_of (run_main argv w)) =
      [success_json (nth 2 argv "") mb (List.length points)].
Proof.
  intros Hargs Hbody.
  destruct (main_body_val _ _ _ _ _ _ Hbody)
    as (-> & points & size & mb & Hp & Hs & Hd & Hj).
  exists points, size, mb.
  repeat split; trivial.
  - rewrite main_run by exact Hargs. now rewrite Hbody.
  - rewrite main_run by exact Hargs. rewrite Hbody.
    unfold trace_of. cbn [fst]. now rewrite json_results_app, Hj.
Qed.

(** *** Stages in sequence *)

Lemma parse_success (path : string) (w w' : World) t points :
  parse_file path w = (t, Val points, w') ->
  w' = w /\ points <> [] /\
  exists text,
    fs_read w path = Val text /\ points = parse_lines (PyStr.readlines text).
Proof.
  unfold parse_xyz_file, bind, inspect, print, emit, ret, raise. cbn.
  destruct (fs_read w path) as [text|e]; cbn; [|discriminate].
  destruct (parse_lines (PyStr.readlines text)) as [|p ps] eqn:E; cbn;
    [discriminate|].
  intros H. inversion H; subst.
  split; [reflexivity|]. split; [discriminate|].
  exists text. now split.
Qed.

(** X6: the statistics stage cannot fail after the parser: every point
    set that [parse_xyz_file] returns is non-empty, so the reductions
    over its columns are defined, the statistics are computed without
    touching the world, and the count they hold is the number of parsed
    points, at least one. *)
Theorem statistics_after_parse (path : string) (w w' : World) t points :
  parse_file path w = (t, Val points, w') ->
  exists t2 stats,
    statistics points w' = (t2, Val stats, w') /\
    count stats = List.length points /\
    (0 < count stats)%nat.
Proof.
  intros H. apply parse_success in H as (_ & Hne & _).
  destruct (statistics_runs points w' Hne) as (t2 & stats & Hs).
  exists t2, stats. split; [exact Hs|].
  pose proof (statistics_count _ _ _ _ _ Hs) as Hc.
  split; [exact Hc|]. rewrite Hc.
  destruct points; [congruence|cbn; lia].
Qed.

Lemma selected_incl {A} (points : list A) (indices : list nat) (ws : list A) :
  Forall2 (fun i p => nth_error points i = Some p) indices ws ->
  incl ws points.
Proof.
  induction 1 as [|i p rest ps Hi _ IH]; intros q Hq; [destruct Hq|].
  destruct Hq as [<-|Hq]; [exact (nth_error_In _ _ Hi)|now apply IH].
Qed.

(** X10: for every sample size, the working set of the
    nearest-neighbour search holds [min(N, sample_size)] points, each of
    them a point of the input: sampling never enlarges the set and never
    invents a point. *)
Theorem sample_subset (points : PointSet) (sample_size : nat) (w : World)
    (indices : list nat) (w' : World) :
  ((sample_size < List.length points)%nat ->
   np_random_choice (List.length points) sample_size false w = (Val indices, w') /\
   valid_draw (List.length points) sample_size indices) ->
  exists ws,
    value_of (sample World np_random_choice points sample_size w) = Val ws /\
    List.length ws = Nat.min (List.length points) sample_size /\
    incl ws points.
Proof.
  intros Hdraw.
  destruct (Nat.ltb_spec sample_size (List.length points)) as [Hlt|Hle].
  - destruct (Hdraw Hlt) as (Hcall & Hlen & _ & Hrange).
    destruct (take_in_range points indices Hrange) as (ws & Hws & Hsel).
    exists ws. split; [|split].
    + unfold sample.
      destruct (Nat.ltb_spec sample_size (List.length points)); [|lia].
      unfold bind, call, lift, print, emit, ret, value_of.
      rewrite Hcall, Hws. reflexivity.
    + rewrite <- (Forall2_length Hsel), Hlen. lia.
    + exact (selected_incl _ _ _ Hsel).
  - exists points. split; [now rewrite sample_small|].
    split; [lia|apply incl_refl].
Qed.

(** *** The size of the report *)

(** X12: a document above the 2 MB limit is reported, not refused:
    once the document is built and its size read, the report stage
    returns the output path whatever the size is, and the warning line
    is printed exactly when the size in megabytes exceeds 2. *)
Theorem oversize_only_warns (points : PointSet) (stats : Stats) (avg : float)
    (h v : Buffer) (out name : string) (w w1 : World) (size : Z) (mb : float) :
  doc_build out name stats avg h v w = (Val tt, w1) ->
  os_getsize w1 out = Val size ->
  PyNum.int_truediv size 1048576 = Val mb ->
  exists t,
    generate_pdf_report World os_getsize Buffer doc_build
                        points stats avg h v out name w = (t, Val out, w1) /\
    (In size_warning t <-> (2 <? mb) = true).
Proof.
  intros Hbuild Hsize Hdiv.
  unfold generate_pdf_report, getsize, bind, call, inspect, lift, print, emit,
    ret.
  rewrite Hbuild, Hsize, Hdiv.
  destruct (2 <? mb); eexists; (split; [reflexivity|]); unfold size_warning;
    cbn [app In]; split; intros H; try reflexivity; try discriminate.
  - do 3 right. now left.
  - repeat (destruct H as [H|H]; try discriminate). destruct H.
Qed.

(** *** Standard error *)

Lemma stderr_lines_app (a b : trace) :
  stderr_lines (a ++ b) = (stderr_lines a ++ stderr_lines b)%list.
Proof. apply filter_app. Qed.

Lemma calm_at {A} (c : M World A) w t r w' :
  c w = (t, r, w') -> calm c -> stderr_lines t = [].
Proof. intros H Hq. specialize (Hq w). now rewrite H in Hq. Qed.

Lemma calm_ret {A} (a : A) : calm (W := World) (ret a).
Proof. intros w. reflexivity. Qed.

Lemma calm_raise {A} (e : py_exception) : calm (W := World) (A := A) (raise e).
Proof. intros w. reflexivity. Qed.

Lemma calm_lift {A} (r : result A) : calm (W := World) (lift r).
Proof. intros w. reflexivity. Qed.

Lemma calm_print (line : list piece) : calm (W := World) (print line).
Proof. intros w. reflexivity. Qed.

Lemma calm_json tag payload : calm (W := World) (emit (StdoutJson tag payload)).
Proof. intros w. reflexivity. Qed.

Lemma calm_call {A} (f : extern World A) : calm (call f).
Proof. intros w. unfold call. now destruct (f w). Qed.

Lemma calm_inspect {A} (f : World -> result A) : calm (inspect f).
Proof. intros w. reflexivity. Qed.

Lemma calm_bind {A B} (c : M World A) (k : A -> M World B) :
  calm c -> (forall a, calm (k a)) -> calm (bind c k).
Proof.
  intros Hc Hk w. unfold bind.
  pose proof (Hc w) as H1.
  destruct (c w) as [[t1 [a|e]] w1]; unfold trace_of in H1; cbn [fst] in H1.
  - pose proof (Hk a w1) as H2.
    destruct (k a w1) as [[t2 r2] w2].
    unfold trace_of in H2 |- *. cbn [fst] in H2 |- *.
    now rewrite stderr_lines_app, H1, H2.
  - exact H1.
Qed.

Lemma calm_if {A} (b : bool) (c1 c2 : M World A) :
  calm c1 -> calm c2 -> calm (if b then c1 else c2).
Proof. now destruct b. Qed.

Create HintDb calm.

#[local] Hint Resolve calm_ret calm_raise calm_lift calm_print calm_json
  calm_call calm_inspect calm_bind calm_if : calm.

Lemma calm_body (input_file output_file : string) :
  calm (body input_file output_file).
Proof.
  unfold main_body, parse_xyz_file, calculate_statistics,
    calculate_nearest_neighbor_distance, sample, create_z_histogram,
    create_3d_visualization, downsample, generate_pdf_report, getsize.
  repeat first [ apply calm_bind; [|intros ?] | apply calm_if
               | solve [auto with calm] ].
Qed.

Lemma stderr_banner : stderr_lines banner = [].
Proof. reflexivity. Qed.

(** X13: the exit status and the two output channels of [main] agree
    in every run. The status is 0 or 1. Exactly one structured result is
    printed when both arguments are given, none otherwise. Status 0
    comes with a success result and nothing on standard error; status 1
    with both arguments comes with the failure result of an exception,
    and standard error holds exactly the line "ERROR: " followed by the
    message of that exception. *)
Theorem exit_status_and_channels (argv : list string) (w : World) :
  (status_of (run_main argv w) = Exit 0 \/
   status_of (run_main argv w) = Exit 1) /\
  List.length (json_results (trace_of (run_main argv w)))
    = (if (List.length argv <? 3)%nat then 0 else 1)%nat /\
  (status_of (run_main argv w) = Exit 0 ->
   stderr_lines (trace_of (run_main argv w)) = [] /\
   exists mb n,
     json_results (trace_of (run_main argv w))
       = [success_json (nth 2 argv "") mb n]) /\
  (status_of (run_main argv w) = Exit 1 ->
   (3 <= List.length argv)%nat ->
   exists e,
     json_results (trace_of (run_main argv w)) = [failure_json e] /\
     stderr_lines (trace_of (run_main argv w)) = [error_line e]).
Proof.
  destruct (Nat.ltb_spec (List.length argv) 3) as [Hlt|Hge].
  - unfold main. destruct (Nat.ltb_spec (List.length argv) 3); [|lia].
    unfold status_of, trace_of. cbn.
    split; [now right|]. split; [reflexivity|].
    split; [discriminate|]. intros _ Hge. lia.
  - rewrite main_run by exact Hge.
    destruct (body _ _ w) as [[t [st|e]] w'] eqn:Hb;
      unfold status_of, trace_of; cbn [fst snd].
    + destruct (main_body_val _ _ _ _ _ _ Hb)
        as (-> & points & size & mb & _ & _ & _ & Hj).
      rewrite json_results_app, stderr_lines_app, Hj.
      rewrite (calm_at _ _ _ _ _ Hb (calm_body _ _)).
      split; [now left|]. split; [reflexivity|].
      split; [|discriminate].
      intros _. split; [reflexivity|]. now exists mb, (List.length points).
    + rewrite !json_results_app, !stderr_lines_app.
      rewrite (main_body_raise _ _ _ _ _ _ Hb).
      rewrite (calm_at _ _ _ _ _ Hb (calm_body _ _)).
      split; [now right|]. split; [reflexivity|].
      split; [discriminate|].
      intros _ _. exists e. split; reflexivity.
Qed.

(** *** The last line *)

Lemma ends_with_result_bind {A B} (c : M World A) (k : A -> M World B) :
  (forall a, ends_with_result (k a)) -> ends_with_result (bind c k).
Proof.
  intros Hk w t b w' H.
  apply bind_inv in H
    as [(e & _ & Hr) | (t1 & a & w1 & t2 & _ & H & ->)]; [discriminate Hr|].
  destruct (Hk a w1 t2 b w' H) as (t0 & j & -> & Hj).
  exists (t1 ++ t0), j. now rewrite app_assoc.
Qed.

Lemma ends_with_result_body (input_file output_file : string) :
  ends_with_result (body input_file output_file).
Proof.
  unfold main_body.
  do 11 (apply ends_with_result_bind; intros ?).
  intros w t st w' H. cbn in H. inversion H; subst.
  eexists [], _. split; reflexivity.
Qed.

(** X15: with both arguments given, the structured result is the last
    thing [main] prints, in success and in failure: nothing follows the
    "JSON_RESULT:" line on either channel. *)
Theorem result_is_last_line (argv : list string) (w : World) :
  (3 <= List.length argv)%nat ->
  exists t0 j,
    trace_of (run_main argv w) = (t0 ++ [j])%list /\ is_json j = true.
Proof.
  intros Hge. rewrite main_run by exact Hge.
  destruct (body _ _ w) as [[t [st|e]] w'] eqn:Hb; unfold trace_of; cbn [fst].
  - destruct (ends_with_result_body _ _ _ _ _ _ Hb) as (t0 & j & -> & Hj).
    exists (banner ++ t0), j. now rewrite app_assoc.
  - exists (banner ++ t ++ [error_line e]), (failure_json e).
    split; [|reflexivity]. unfold error_line.
    now rewrite <- !app_assoc.
Qed.

(** *** Inputs that stop the run *)

Lemma body_not_finite (input_file output_file text : string) (w : World) :
  fs_read w input_file = Val text ->
  cKDTree.all_finite (parse_lines (PyStr.readlines text)) = false ->
  (List.length (parse_lines (PyStr.readlines text)) <= 1000)%nat ->
  exists t, body input_file output_file w = (t, Raise not_finite, w).
Proof.
  intros Hread Hnf Hle.
  set (points := parse_lines (PyStr.readlines text)) in *.
  assert (Hne : points <> []) by (intros E; rewrite E in Hnf; discriminate).
  assert (Hparse : exists t1, parse_file input_file w = (t1, Val points, w)).
  { unfold parse_xyz_file, bind, inspect, print, emit, ret. cbn.
    rewrite Hread. cbn. fold points.
    destruct points; [congruence|]. cbn. eexists. reflexivity. }
  destruct Hparse as (t1 & Hparse).
  destruct (statistics_runs points w Hne) as (t2 & stats & Hstats).
  assert (Hnear : exists t3, nearest points 1000 w = (t3, Raise not_finite, w)).
  { unfold calculate_nearest_neighbor_distance.
    unfold bind at 1. cbn [print emit].
    unfold bind at 1. rewrite sample_small by exact Hle.
    unfold bind, lift. rewrite (average_nearest_not_finite _ Hnf).
    eexists. reflexivity. }
  destruct Hnear as (t3 & Hnear).
  unfold main_body.
  rewrite (bind_val _ _ _ _ _ _ Hparse).
  rewrite (bind_val _ _ _ _ _ _ Hstats).
  rewrite (bind_raise _ _ _ _ _ _ Hnear).
  eexists. reflexivity.
Qed.

(** X14: a file of at most 1000 points with a non-finite coordinate
    stops the run at the nearest-neighbour stage: [main] reports the
    index's [ValueError] as the failure result and exits with status 1,
    and the world is left as it was, so nothing was drawn from the
    generator, nothing rendered and no document written. *)
Theorem nonfinite_input_aborts (argv : list string) (w : World) (text : string) :
  (3 <= List.length argv)%nat ->
  fs_read w (nth 1 argv "") = Val text ->
  cKDTree.all_finite (parse_lines (PyStr.readlines text)) = false ->
  (List.length (parse_lines (PyStr.readlines text)) <= 1000)%nat ->
  snd (run_main argv w) = w /\
  status_of (run_main argv w) = Exit 1 /\
  json_results (trace_of (run_main argv w)) = [failure_json not_finite].
Proof.
  intros Hge Hread Hnf Hle.
  destruct (body_not_finite _ (nth 2 argv "") _ _ Hread Hnf Hle) as (t & Hb).
  rewrite main_run by exact Hge. rewrite Hb.
  unfold status_of, trace_of. cbn [fst snd].
  split; [reflexivity|]. split; [reflexivity|].
  rewrite !json_results_app, (main_body_raise _ _ _ _ _ _ Hb). reflexivity.
Qed.

(** X16: an input file that cannot be opened ends the run at once:
    after the banner and the parser's first line, the error line goes to
    standard error, the failure result with the message of the
    exception follows, the status is 1 and the world is unchanged. *)
Theorem unreadable_input_reported (argv : list string) (w : World)
    (e : py_exception) :
  (3 <= List.length argv)%nat ->
  fs_read w (nth 1 argv "") = Raise e ->
  run_main argv w =
    (banner ++
     [Stdout [Lit "[Parser] Reading file: ";
              Fmt (PStr (os_path_basename (nth 1 argv ""))) ""];
      error_line e; failure_json e], Exit 1, w).
Proof.
  intros Hge Hread. rewrite main_run by exact Hge.
  unfold main_body, parse_xyz_file, bind, inspect, print, emit.
  rewrite Hread. reflexivity.
Qed.


End Facts.

(** Without a draw the result is the average over all points. *)
Lemma nearest_of_all (W : Type) (choice : nat -> nat -> bool -> extern W (list nat))
    (points : PointSet) (sample_size : nat) (w : W) :
  (List.length points <= sample_size)%nat ->
  value_of (calculate_nearest_neighbor_distance W choice points sample_size w)
    = average_nearest points.
Proof.
  intros Hle.
  unfold calculate_nearest_neighbor_distance, sample.
  destruct (Nat.ltb_spec sample_size (List.length points)); [lia|].
  unfold bind, print, emit, lift, ret, value_of. cbn.
  destruct (average_nearest points); reflexivity.
Qed.

(** When a draw is made, the result is the average over the points at
    the drawn positions. *)
Lemma nearest_of_draw (W : Type) (choice : nat -> nat -> bool -> extern W (list nat))
    (points : PointSet) (sample_size : nat) (w w' : W)
    (indices : list nat) (ws : PointSet) :
  (sample_size < List.length points)%nat ->
  choice (List.length points) sample_size false w = (Val indices, w') ->
  take points indices = Val ws ->
  value_of (calculate_nearest_neighbor_distance W choice points sample_size w)
    = average_nearest ws.
Proof.
  intros Hlt Hdraw Htake.
  unfold calculate_nearest_neighbor_distance, sample.
  destruct (Nat.ltb_spec sample_size (List.length points)); [|lia].
  unfold bind, call, print, emit, lift, ret, value_of. cbn.
  rewrite Hdraw, Htake. cbn.
  destruct (average_nearest ws); reflexivity.
Qed.

Lemma draws_valid :
  valid_draw (List.length line_points) 1000 draw_a /\
  valid_draw (List.length line_points) 1000 draw_b.
Proof.
  assert (Hlen : List.length line_points = 1001%nat) by (vm_compute; reflexivity).
  rewrite Hlen. unfold draw_a, draw_b, valid_draw. split.
  - split; [|split].
    + apply length_seq.
    + apply seq_NoDup.
    + apply Forall_forall. intros i Hi. apply in_seq in Hi. lia.
  - split; [|split].
    + rewrite length_app, length_seq. reflexivity.
    + apply NoDup_app.
      * apply seq_NoDup.
      * repeat constructor. intros [].
      * intros i Hi [<-|[]]. apply in_seq in Hi. lia.
    + apply Forall_app. split.
      * apply Forall_forall. intros i Hi. apply in_seq in Hi. lia.
      * repeat constructor.
Qed.

(** On 1001 collinear points, one unit apart, the average depends on
    which 1000 positions are drawn. *)
Lemma line_averages :
  value_of (Sim.calculate_nearest_neighbor_distance line_points 1000
              (Sim.world_drawing draw_a)) = Val 1 /\
  exists v,
    value_of (Sim.calculate_nearest_neighbor_distance line_points 1000
                (Sim.world_drawing draw_b)) = Val v /\
    (v =? 1) = false.
Proof.
  split; [vm_compute; reflexivity|].
  eexists. split; vm_compute; reflexivity.
Qed.

(** C4 (as amended): the computation has no seed parameter: its inputs
    are the points and the sample size, and any sampling is one call
    [np.random.choice(N, sample_size, replace=False)] on NumPy's global
    generator. With at most [sample_size] points no draw is made and
    the result is the average over all points, identical bit for bit in
    every run and every state of the generator. With more points the
    result is the average over the points at the drawn positions, and
    two runs on identical input can differ: there are a point set and
    two draws of 1000 distinct positions that give different
    averages. *)
Theorem nearest_seedless (W1 W2 : Type)
    (choice1 : nat -> nat -> bool -> extern W1 (list nat))
    (choice2 : nat -> nat -> bool -> extern W2 (list nat))
    (points : PointSet) (sample_size : nat) (w1 w1' : W1) (w2 : W2)
    (indices : list nat) (ws : PointSet) :
  ((sample_size < List.length points)%nat ->
   choice1 (List.length points) sample_size false w1 = (Val indices, w1') /\
   take points indices = Val ws) ->
  value_of (calculate_nearest_neighbor_distance W1 choice1 points sample_size w1)
    = average_nearest
        (if (sample_size <? List.length points)%nat then ws else points) /\
  ((List.length points <= sample_size)%nat ->
   value_of (calculate_nearest_neighbor_distance W2 choice2 points sample_size w2)
     = value_of (calculate_nearest_neighbor_distance W1 choice1 points
                   sample_size w1)) /\
  exists (pts : PointSet) (d1 d2 : list nat),
    valid_draw (List.length pts) 1000 d1 /\
    valid_draw (List.length pts) 1000 d2 /\
    value_of (Sim.calculate_nearest_neighbor_distance pts 1000
                (Sim.world_drawing d1))
      <> value_of (Sim.calculate_nearest_neighbor_distance pts 1000
                     (Sim.world_drawing d2)).
Proof.
  intros Hdraw. split; [|split].
  - destruct (Nat.ltb_spec sample_size (List.length points)) as [Hlt|Hle].
    + destruct (Hdraw Hlt) as [Hcall Htake].
      exact (nearest_of_draw W1 choice1 points sample_size w1 w1' indices ws
               Hlt Hcall Htake).
    + now apply nearest_of_all.
  - intros Hle. now rewrite !nearest_of_all.
  - exists line_points, draw_a, draw_b.
    split; [exact (proj1 draws_valid)|]. split; [exact (proj2 draws_valid)|].
    destruct line_averages as (Ha & v & Hb & Hv).
    rewrite Ha, Hb. intros E. injection E as E. subst v.
    clear Ha Hb. vm_compute in Hv. discriminate Hv.
Qed.

(** * Further properties of the parser *)

Local Open Scope string_scope.

Lemma space_not_comma c : PyStr.isspace c = true -> Ascii.eqb c "," = false.
Proof.
  destruct c as [[] [] [] [] [] [] [] []]; try reflexivity; discriminate.
Qed.

Lemma space_not_hash c : PyStr.isspace c = true -> Ascii.eqb c "#" = false.
Proof.
  destruct c as [[] [] [] [] [] [] [] []]; try reflexivity; discriminate.
Qed.

Lemma lstrip_pad pre s : all_space pre = true -> PyStr.lstrip (pre ++ s) = PyStr.lstrip s.
Proof.
  induction pre as [|c pre IH]; cbn; [reflexivity|].
  intros H. apply andb_prop in H as [Hc Hp]. rewrite Hc. now apply IH.
Qed.

Lemma rstrip_space ws : all_space ws = true -> PyStr.rstrip ws = "".
Proof.
  induction ws as [|c ws IH]; cbn; [reflexivity|].
  intros H. apply andb_prop in H as [Hc Hp]. now rewrite (IH Hp), Hc.
Qed.

Lemma rstrip_pad s post : all_space post = true -> PyStr.rstrip (s ++ post) = PyStr.rstrip s.
Proof.
  intros H. induction s as [|c s IH]; cbn.
  - now apply rstrip_space.
  - now rewrite IH.
Qed.

Lemma lstrip_space ws : all_space ws = true -> PyStr.lstrip ws = "".
Proof.
  induction ws as [|c ws IH]; cbn; [reflexivity|].
  intros H. apply andb_prop in H as [Hc Hp]. rewrite Hc. now apply IH.
Qed.

Lemma strip_pad_right s post :
  all_space post = true -> PyStr.strip (s ++ post) = PyStr.strip s.
Proof.
  intros H. unfold PyStr.strip. induction s as [|c s IH]; cbn.
  - now rewrite (lstrip_space post H).
  - destruct (PyStr.isspace c); [exact IH|].
    change (String c (s ++ post)) with (String c s ++ post).
    now apply rstrip_pad.
Qed.

Lemma strip_pad pre s post :
  all_space pre = true -> all_space post = true ->
  PyStr.strip (pre ++ s ++ post) = PyStr.strip s.
Proof.
  intros Hpre Hpost. unfold PyStr.strip. rewrite (lstrip_pad pre _ Hpre).
  apply strip_pad_right, Hpost.
Qed.

(** X2: white space around a line does not change what the loop body
    makes of it: indentation, trailing blanks and the CR left by a
    CR LF line ending are all removed by [strip] before anything else. *)
Theorem surrounding_whitespace_ignored (pre line post : string) :
  all_space pre = true -> all_space post = true ->
  parse_line (pre ++ line ++ post) = parse_line line.
Proof.
  intros Hpre Hpost. unfold parse_line. now rewrite strip_pad.
Qed.

(** split *)
Lemma split_space c s : PyStr.isspace c = true -> PyStr.split (String c s) = PyStr.split s.
Proof. intros H. cbn. now rewrite H. Qed.

Lemma split_cons c r :
  PyStr.split (String c r) =
  if PyStr.isspace c then PyStr.split r
  else match r with
       | EmptyString => [String c EmptyString]
       | String c' _ =>
           if PyStr.isspace c' then String c EmptyString :: PyStr.split r
           else match PyStr.split r with
                | t :: ts => String c t :: ts
                | [] => [String c EmptyString]
                end
       end.
Proof. destruct r; reflexivity. Qed.

Lemma split_head c r :
  PyStr.isspace c = false -> exists t ts, PyStr.split (String c r) = String c t :: ts.
Proof.
  revert c. induction r as [|c' r IH]; intros c Hc.
  - exists "", []. rewrite split_cons. now rewrite Hc.
  - rewrite split_cons, Hc.
    destruct (PyStr.isspace c') eqn:Hc'.
    + now exists "", (PyStr.split (String c' r)).
    + destruct (IH c' Hc') as (t & ts & ->). now exists (String c' t), ts.
Qed.

Lemma split_all_space ws : all_space ws = true -> PyStr.split ws = [].
Proof.
  induction ws as [|c ws IH]; [reflexivity|].
  cbn [all_space]. intros H. apply andb_prop in H as [Hc Hp].
  rewrite (split_space _ _ Hc). now apply IH.
Qed.

Lemma split_app_space a c b :
  PyStr.isspace c = true ->
  PyStr.split (a ++ String c b) = (PyStr.split a ++ PyStr.split b)%list.
Proof.
  intros Hc. induction a as [|x a IH].
  - cbn [append app PyStr.split]. now rewrite Hc.
  - change (String x a ++ String c b) with (String x (a ++ String c b)).
    destruct (PyStr.isspace x) eqn:Hx.
    + rewrite !(split_space _ _ Hx). exact IH.
    + rewrite (split_cons x (a ++ String c b)), (split_cons x a), Hx.
      destruct a as [|y a].
      * cbn [append]. rewrite Hc. now rewrite (split_space _ _ Hc).
      * change (String y a ++ String c b) with (String y (a ++ String c b)) in *.
        cbv beta iota.
        destruct (PyStr.isspace y) eqn:Hy.
        -- now rewrite IH.
        -- rewrite IH. destruct (split_head y a Hy) as (t & ts & ->). reflexivity.
Qed.

Lemma split_pad_right a ws : all_space ws = true -> PyStr.split (a ++ ws) = PyStr.split a.
Proof.
  destruct ws as [|c ws]; intros H.
  - f_equal. induction a; cbn; congruence.
  - cbn [all_space] in H. apply andb_prop in H as [Hc Hw].
    rewrite (split_app_space _ _ _ Hc), (split_all_space _ Hw). apply app_nil_r.
Qed.

Lemma replace_comma_app a b :
  PyStr.replace_comma (a ++ b) = PyStr.replace_comma a ++ PyStr.replace_comma b.
Proof. induction a as [|c a IH]; cbn; congruence. Qed.

Lemma replace_comma_space ws : all_space ws = true -> PyStr.replace_comma ws = ws.
Proof.
  induction ws as [|c ws IH]; [reflexivity|]. cbn.
  intros H. apply andb_prop in H as [Hc Hw].
  now rewrite (space_not_comma _ Hc), (IH Hw).
Qed.

Lemma replace_comma_idem s : PyStr.replace_comma (PyStr.replace_comma s) = PyStr.replace_comma s.
Proof.
  induction s as [|c s IH]; [reflexivity|]. cbn. rewrite IH.
  destruct (Ascii.eqb c ",") eqn:E; [reflexivity|now rewrite E].
Qed.

Lemma rstrip_decompose s : exists ws, all_space ws = true /\ s = PyStr.rstrip s ++ ws.
Proof.
  induction s as [|c s (ws & Hws & IH)].
  - now exists "".
  - cbn. destruct (PyStr.isspace c && PyStr.is_empty (PyStr.rstrip s)) eqn:E.
    + apply andb_prop in E as [Hc He].
      destruct (PyStr.rstrip s); [|discriminate]. cbn in IH. subst s.
      exists (String c ws). cbn. now rewrite Hc, Hws.
    + exists ws. split; [exact Hws|]. cbn. now rewrite <- IH.
Qed.

Lemma lstrip_decompose s : exists ws, all_space ws = true /\ s = ws ++ PyStr.lstrip s.
Proof.
  induction s as [|c s (ws & Hws & IH)].
  - now exists "".
  - cbn. destruct (PyStr.isspace c) eqn:Hc.
    + exists (String c ws). cbn. rewrite Hc, Hws. split; [reflexivity|]. now rewrite <- IH.
    + now exists "".
Qed.

Lemma split_pad_left ws a : all_space ws = true -> PyStr.split (ws ++ a) = PyStr.split a.
Proof.
  induction ws as [|c ws IH]; [reflexivity|].
  cbn [all_space]. intros H. apply andb_prop in H as [Hc Hw].
  change (String c ws ++ a) with (String c (ws ++ a)).
  rewrite (split_space _ _ Hc). now apply IH.
Qed.

Lemma strip_decompose s :
  exists pre post, all_space pre = true /\ all_space post = true /\
                   s = pre ++ PyStr.strip s ++ post.
Proof.
  destruct (lstrip_decompose s) as (pre & Hpre & E1).
  destruct (rstrip_decompose (PyStr.lstrip s)) as (post & Hpost & E2).
  exists pre, post. repeat split; trivial.
  unfold PyStr.strip. now rewrite <- E2.
Qed.

Lemma tokens_split s : tokens s = PyStr.split (PyStr.replace_comma s).
Proof.
  unfold tokens.
  destruct (strip_decompose s) as (pre & post & Hpre & Hpost & E).
  rewrite E at 2. rewrite !replace_comma_app.
  rewrite (replace_comma_space _ Hpre), (replace_comma_space _ Hpost).
  now rewrite split_pad_left, split_pad_right.
Qed.

Lemma all_space_app a b : all_space (a ++ b) = all_space a && all_space b.
Proof. induction a as [|c a IH]; cbn; [reflexivity|]. now rewrite IH, andb_assoc. Qed.

Lemma rstrip_nonspace h t :
  PyStr.isspace h = false -> PyStr.rstrip (String h t) = String h (PyStr.rstrip t).
Proof. intros H. cbn. now rewrite H. Qed.

Lemma lstrip_nonspace h t :
  PyStr.isspace h = false -> PyStr.lstrip (String h t) = String h t.
Proof. intros H. cbn. now rewrite H. Qed.

Lemma lstrip_head s h t : PyStr.lstrip s = String h t -> PyStr.isspace h = false.
Proof.
  induction s as [|c s IH]; cbn; [discriminate|].
  destruct (PyStr.isspace c) eqn:Hc; [exact IH|].
  intros H. inversion H; subst. exact Hc.
Qed.

(** The stripped line, when it is not empty: its first character is not
    a space and is the first character that is not a space of the line. *)
Lemma strip_nonempty s :
  PyStr.strip s <> "" ->
  exists pre h t,
    all_space pre = true /\ PyStr.isspace h = false /\ s = pre ++ String h t /\
    PyStr.strip s = String h (PyStr.rstrip t).
Proof.
  intros Hne.
  destruct (lstrip_decompose s) as (pre & Hpre & E).
  unfold PyStr.strip in *.
  destruct (PyStr.lstrip s) as [|h t] eqn:El; [now contradiction Hne|].
  pose proof (lstrip_head s h t El) as Hh.
  exists pre, h, t. repeat split; trivial.
  now apply rstrip_nonspace.
Qed.

Lemma strip_of_parts pre h t :
  all_space pre = true -> PyStr.isspace h = false ->
  PyStr.strip (pre ++ String h t) = String h (PyStr.rstrip t).
Proof.
  intros Hpre Hh. unfold PyStr.strip.
  rewrite (lstrip_pad _ _ Hpre), (lstrip_nonspace _ _ Hh).
  now apply rstrip_nonspace.
Qed.

Lemma parse_line_tokens line :
  parse_line line =
  if flagged line then None
  else match tokens line with
       | p0 :: p1 :: p2 :: _ =>
           match PyFloat.float_of_str p0 with
           | Some x =>
               match PyFloat.float_of_str p1 with
               | Some y =>
                   match PyFloat.float_of_str p2 with
                   | Some z => Some (mkPoint x y z)
                   | None => None
                   end
               | None => None
               end
           | None => None
           end
       | _ => None
       end.
Proof. reflexivity. Qed.

Lemma flagged_app line x :
  flagged line = false -> flagged (line ++ x) = false.
Proof.
  unfold flagged. intros H. apply orb_false_elim in H as [He Hh].
  destruct (strip_nonempty line) as (pre & h & t & Hpre & Hsp & -> & Es).
  { intros E. rewrite E in He. discriminate. }
  rewrite Es in Hh. cbn in Hh.
  replace ((pre ++ String h t) ++ x) with (pre ++ String h (t ++ x)).
  - rewrite (strip_of_parts _ _ _ Hpre Hsp). cbn. exact Hh.
  - clear. induction pre; cbn; congruence.
Qed.

(** X3: columns after the third are ignored: a line that yields a point
    yields the same point when anything is appended to it after a
    separator (white space or a comma). *)
Theorem extra_columns_ignored (line extra : string) (c : ascii) (p : Point) :
  parse_line line = Some p ->
  PyStr.isspace c = true \/ c = ","%char ->
  parse_line (line ++ String c extra) = Some p.
Proof.
  intros H Hc. rewrite parse_line_tokens in H |- *.
  destruct (flagged line) eqn:Hf; [discriminate|].
  rewrite (flagged_app _ _ Hf).
  rewrite tokens_split in H |- *.
  rewrite replace_comma_app.
  assert (Hsep : exists c', PyStr.isspace c' = true /\
             PyStr.replace_comma (String c extra)
             = String c' (PyStr.replace_comma extra)).
  { destruct Hc as [Hc| ->].
    - exists c. split; [exact Hc|]. cbn. now rewrite (space_not_comma _ Hc).
    - now exists " "%char. }
  destruct Hsep as (c' & Hc' & ->).
  rewrite (split_app_space _ _ _ Hc').
  destruct (PyStr.split (PyStr.replace_comma line)) as [|p0 [|p1 [|p2 rest]]];
    try discriminate.
  exact H.
Qed.

Lemma float_of_hash t : PyFloat.float_of_str (String "#" t) = None.
Proof.
  unfold PyFloat.float_of_str. cbn [PyFloat.strip_underscores].
  change (Ascii.eqb "#" "_") with false. cbv beta iota.
  change (Ascii.eqb Ascii.zero "_" && negb (PyFloat.is_digit "#")) with false.
  cbv beta iota.
  destruct (PyFloat.strip_underscores "#" t) as [s|]; [|reflexivity].
  cbn. reflexivity.
Qed.

Lemma strip_empty_all_space s : PyStr.strip s = "" -> all_space s = true.
Proof.
  intros E. destruct (strip_decompose s) as (pre & post & Hpre & Hpost & Es).
  rewrite Es, E. cbn. now rewrite all_space_app, Hpre, Hpost.
Qed.

Lemma hash_token u :
  PyStr.startswith_hash (PyStr.strip u) = true ->
  exists t ts, PyStr.split u = String "#" t :: ts.
Proof.
  intros H. destruct (strip_decompose u) as (pre & post & Hpre & Hpost & Es).
  destruct (PyStr.strip u) as [|h r] eqn:E; [discriminate|].
  cbn in H. apply Ascii.eqb_eq in H. subst h.
  rewrite Es, (split_pad_left _ _ Hpre), (split_pad_right _ _ Hpost).
  now apply split_head.
Qed.

Lemma flagged_replace_comma line :
  flagged line = true -> flagged (PyStr.replace_comma line) = true.
Proof.
  unfold flagged. intros H.
  destruct (PyStr.strip line) as [|h r] eqn:E.
  - pose proof (strip_empty_all_space _ E) as Hs.
    now rewrite (replace_comma_space _ Hs), E.
  - cbn in H. apply Ascii.eqb_eq in H. subst h.
    destruct (strip_nonempty line) as (pre & h & t & Hpre & Hsp & -> & Es).
    { rewrite E. discriminate. }
    rewrite E in Es. inversion Es; subst h.
    rewrite replace_comma_app, (replace_comma_space _ Hpre). cbn [PyStr.replace_comma].
    change (Ascii.eqb "#" ",") with false. cbv iota.
    rewrite (strip_of_parts _ _ _ Hpre Hsp). reflexivity.
Qed.

(** X4: a comma is the same as a blank: replacing every comma of a line
    by a space never changes what the line parses to, also when the
    line is a comment, is blank or is passed over. *)
Theorem commas_are_whitespace (line : string) :
  parse_line (PyStr.replace_comma line) = parse_line line.
Proof.
  rewrite !parse_line_tokens.
  assert (Ht : tokens (PyStr.replace_comma line) = tokens line)
    by (now rewrite !tokens_split, replace_comma_idem).
  rewrite Ht.
  destruct (flagged line) eqn:FL.
  - now rewrite (flagged_replace_comma _ FL).
  - destruct (flagged (PyStr.replace_comma line)) eqn:FU; [|reflexivity].
    rewrite tokens_split.
    unfold flagged in FU. apply orb_prop in FU as [FU|FU].
    + assert (E : PyStr.strip (PyStr.replace_comma line) = "")
        by (destruct (PyStr.strip (PyStr.replace_comma line)); [reflexivity|discriminate]).
      apply strip_empty_all_space in E. now rewrite (split_all_space _ E).
    + destruct (hash_token _ FU) as (t & ts & ->).
      destruct ts as [|p1 [|p2 rest]]; try reflexivity.
      now rewrite float_of_hash.
Qed.

Lemma to_crlf_empty s : to_crlf s = "" -> s = "".
Proof.
  destruct s as [|c s]; [reflexivity|]. cbn [to_crlf].
  destruct (Ascii.eqb c PyStr.LF); discriminate.
Qed.

Lemma readlines_cons c r :
  PyStr.readlines (String c r) =
  if Ascii.eqb c PyStr.LF then String PyStr.LF EmptyString :: PyStr.readlines r
  else if Ascii.eqb c PyStr.CR then
    match r with
    | String c' r' =>
        if Ascii.eqb c' PyStr.LF then String PyStr.LF EmptyString :: PyStr.readlines r'
        else String PyStr.LF EmptyString :: PyStr.readlines r
    | EmptyString => [String PyStr.LF EmptyString]
    end
  else match r with
       | EmptyString => [String c EmptyString]
       | String _ _ =>
           match PyStr.readlines r with
           | l :: ls => String c l :: ls
           | [] => [String c EmptyString]
           end
       end.
Proof. destruct r; reflexivity. Qed.

Lemma readlines_crlf (text : string) :
  has_cr text = false -> PyStr.readlines (to_crlf text) = PyStr.readlines text.
Proof.
  induction text as [|c r IH]; [reflexivity|].
  cbn [has_cr to_crlf]. intros H. apply orb_false_elim in H as [Hc Hr].
  specialize (IH Hr).
  destruct (Ascii.eqb c PyStr.LF) eqn:Hlf.
  - rewrite readlines_cons. change (Ascii.eqb PyStr.CR PyStr.LF) with false.
    change (Ascii.eqb PyStr.CR PyStr.CR) with true. cbv iota.
    change (Ascii.eqb PyStr.LF PyStr.LF) with true. cbv iota.
    rewrite IH. rewrite (readlines_cons c r), Hlf. reflexivity.
  - rewrite (readlines_cons c (to_crlf r)), (readlines_cons c r), Hlf, Hc.
    destruct r as [|c2 r2]; [reflexivity|].
    destruct (to_crlf (String c2 r2)) eqn:E.
    + apply to_crlf_empty in E. discriminate.
    + now rewrite IH.
Qed.

(** X5: line endings do not matter: a text written with CR LF line
    endings yields the same points, in the same order, as the same text
    written with LF. *)
Theorem crlf_parses_like_lf (text : string) :
  has_cr text = false ->
  parse_lines (PyStr.readlines (to_crlf text)) = parse_lines (PyStr.readlines text).
Proof. intros H. now rewrite readlines_crlf. Qed.

Lemma skippable_none (line : string) : skippable line -> parse_line line = None.
Proof.
  intros [H|[H|[H|(p0 & p1 & p2 & rest & Ht & H)]]].
  - now apply parse_line_blank.
  - now apply parse_line_comment.
  - now apply parse_line_short.
  - now apply (parse_line_bad_number line p0 p1 p2 rest).
Qed.

(** X1: lines that are passed over leave no trace: a blank line, a
    comment, a line with fewer than three tokens or with a token that
    is not a number can be inserted anywhere in the file without
    changing the points that are parsed or their order. *)
Theorem skipped_lines_invisible (before after : list string) (line : string) :
  skippable line ->
  parse_lines (before ++ line :: after)%list = parse_lines (before ++ after)%list.
Proof.
  intros H. rewrite !parse_lines_app. cbn [parse_lines].
  now rewrite (skippable_none line H).
Qed.

Local Close Scope string_scope.
Local Open Scope list_scope.

(** * Further properties of the numbers *)

(** ** Signs *)

Lemma round_aux_clear mx ex lx : sf_clear (binary_round_aux prec emax false mx ex lx) = true.
Proof.
  unfold binary_round_aux.
  destruct (shr_fexp prec emax mx ex lx) as [mrs e'].
  destruct (shr_fexp prec emax _ e' loc_Exact) as [mrs2 e2].
  destruct (shr_m mrs2); cbn; auto.
  destruct (Z.leb e2 _); reflexivity.
Qed.

Lemma round_clear m e : sf_clear (binary_round prec emax false m e) = true.
Proof.
  unfold binary_round. destruct (shl_align _ _ _) as [mz ez]. apply round_aux_clear.
Qed.

Lemma clear_notneg x : sf_clear x = true -> sf_notneg x = true.
Proof. destruct x as [[]|[]| |[] ? ?]; cbn; congruence. Qed.

Lemma SFmul_self_clear x : sf_clear (SF64mul x x) = true.
Proof.
  unfold SF64mul, SFmul. destruct x as [[]|[]| |[] m e]; cbn; try reflexivity;
  apply round_aux_clear.
Qed.

Lemma SFadd_notneg x y :
  sf_notneg x = true -> sf_notneg y = true -> sf_notneg (SF64add x y) = true.
Proof.
  unfold SF64add, SFadd.
  destruct x as [[]|[]| |[] mx ex]; destruct y as [[]|[]| |[] my ey]; cbn;
    try reflexivity; try discriminate; intros _ _.
  apply clear_notneg.
  destruct (shl_align mx ex _) as [a ?], (shl_align my ey _) as [b ?]. cbn.
  apply round_clear.
Qed.

Lemma SFadd_clear x y :
  sf_clear x = true -> sf_clear y = true -> sf_clear (SF64add x y) = true.
Proof.
  unfold SF64add, SFadd.
  destruct x as [[]|[]| |[] mx ex]; destruct y as [[]|[]| |[] my ey]; cbn;
    try reflexivity; try discriminate; intros _ _.
  destruct (shl_align mx ex _) as [a ?], (shl_align my ey _) as [b ?]. cbn.
  apply round_clear.
Qed.

Lemma SFdiv_notneg x y :
  sf_notneg x = true -> sf_clear y = true -> sf_notneg (SF64div x y) = true.
Proof.
  unfold SF64div, SFdiv.
  destruct x as [[]|[]| |[] mx ex]; destruct y as [[]|[]| |[] my ey]; cbn;
    try reflexivity; try discriminate; intros _ _.
  destruct (SFdiv_core_binary _ _ _ _ _ _) as [[mz ez] lz].
  apply clear_notneg, round_aux_clear.
Qed.

Lemma SFsqrt_clear x : sf_clear x = true -> sf_clear (SF64sqrt x) = true.
Proof.
  unfold SF64sqrt, SFsqrt.
  destruct x as [[]|[]| |[] m e]; cbn; try reflexivity; try discriminate; intros _.
  destruct (SFsqrt_core_binary _ _ _ _) as [[mz ez] lz]. apply round_aux_clear.
Qed.

Lemma notneg_ltb x : notneg x -> (x <? 0) = false.
Proof.
  unfold notneg. rewrite ltb_spec. change (Prim2SF 0) with (S754_zero false).
  destruct (Prim2SF x) as [[]|[]| |[] m e]; cbn; congruence.
Qed.

Lemma normalize_clear z : (0 <= z)%Z -> sf_clear (binary_normalize prec emax z 0%Z false) = true.
Proof.
  destruct z; cbn; intros H; try reflexivity; [apply round_clear|lia].
Qed.

Lemma SF2Prim_clear r : sf_clear r = true -> clear (SF2Prim r).
Proof.
  unfold clear.
  destruct r as [[]|[]| |[] m e]; cbn [sf_clear]; try discriminate; intros _;
    try reflexivity.
  cbn [SF2Prim]. unfold Z.ldexp. rewrite ldshiftexp_spec, of_uint63_spec.
  pose proof (Uint63.to_Z_bounded (Uint63Axioms.of_Z (Zpos m))) as Hb.
  pose proof (normalize_clear _ (proj1 Hb)) as Hc.
  destruct (binary_normalize prec emax
              (Uint63Axioms.to_Z (Uint63Axioms.of_Z (Zpos m))) 0 false)
    as [[]|[]| |[] m' e']; cbn in Hc |- *; try discriminate; try reflexivity.
  apply round_clear.
Qed.

Lemma float_of_nat_clear n : clear (np.float_of_nat n).
Proof.
  unfold np.float_of_nat, np.float_of_Z. apply SF2Prim_clear, normalize_clear. lia.
Qed.

Lemma Forall_firstn' {A} (P : A -> Prop) n (l : list A) :
  Forall P l -> Forall P (firstn n l).
Proof.
  intros H. revert n. induction H as [|x l Hx _ IH]; intros [|n]; cbn; auto.
Qed.

Lemma Forall_skipn' {A} (P : A -> Prop) n (l : list A) :
  Forall P l -> Forall P (skipn n l).
Proof.
  intros H. revert n. induction H as [|x l Hx Hl IH]; intros [|n]; cbn; auto.
Qed.

Section SumClosed.
Variable P : float -> Prop.
Hypothesis P_add : forall x y, P x -> P y -> P (x + y).

Lemma fold_add_closed (a : list float) (acc : float) :
  P acc -> Forall P a -> P (fold_left add a acc).
Proof.
  intros Hacc Ha. revert acc Hacc.
  induction Ha as [|x a Hx _ IH]; intros acc Hacc; cbn; auto.
Qed.

Lemma pw_block_closed (n : nat) :
  forall (a : list float) (r : np.lanes),
    (List.length a <= n)%nat -> lanes_all P r -> Forall P a -> P (np.pw_block r a).
Proof.
  induction n as [|n IH]; intros a r Hlen Hr Ha.
  - destruct a; [|cbn in Hlen; lia]. destruct Hr as (?&?&?&?&?&?&?&?).
    cbn. auto 10.
  - destruct Hr as (H0&H1&H2&H3&H4&H5&H6&H7).
    assert (Htree : P (((np.r0 r + np.r1 r) + (np.r2 r + np.r3 r))
                       + ((np.r4 r + np.r5 r) + (np.r6 r + np.r7 r)))) by auto 10.
    destruct a as [|a0 [|a1 [|a2 [|a3 [|a4 [|a5 [|a6 [|a7 rest]]]]]]]];
      try (cbn [np.pw_block]; apply fold_add_closed; assumption).
    cbn [np.pw_block].
    repeat match goal with H : Forall P (_ :: _) |- _ => inversion H; clear H; subst end.
    apply IH.
    + cbn in Hlen. lia.
    + unfold lanes_all. cbn. auto 10.
    + assumption.
Qed.

Lemma pairwise_sum_closed (fuel : nat) :
  P neg_zero -> forall a, Forall P a -> P (np.pairwise_sum fuel a).
Proof.
  intros Hz. induction fuel as [|f IH]; intros a Ha.
  - cbn [np.pairwise_sum].
    destruct (_ <? 8)%nat; [now apply fold_add_closed|].
    destruct (_ <=? 128)%nat; [|now apply fold_add_closed].
    destruct a as [|a0 [|a1 [|a2 [|a3 [|a4 [|a5 [|a6 [|a7 rest]]]]]]]];
      try (apply fold_add_closed; assumption).
    repeat match goal with H : Forall P (_ :: _) |- _ => inversion H; clear H; subst end.
    apply (pw_block_closed (List.length rest)); [lia| |assumption].
    unfold lanes_all. cbn. auto 10.
  - cbn [np.pairwise_sum].
    destruct (_ <? 8)%nat; [now apply fold_add_closed|].
    destruct (_ <=? 128)%nat.
    + destruct a as [|a0 [|a1 [|a2 [|a3 [|a4 [|a5 [|a6 [|a7 rest]]]]]]]];
        try (apply fold_add_closed; assumption).
      repeat match goal with H : Forall P (_ :: _) |- _ => inversion H; clear H; subst end.
      apply (pw_block_closed (List.length rest)); [lia| |assumption].
      unfold lanes_all. cbn. auto 10.
    + apply P_add; apply IH.
      * now apply Forall_firstn'.
      * now apply Forall_skipn'.
Qed.

Lemma sum_closed (a : list float) :
  P zero -> P neg_zero -> Forall P a -> P (np.sum a).
Proof.
  intros Hp Hz Ha. unfold np.sum. apply P_add; [exact Hp|].
  now apply pairwise_sum_closed.
Qed.

End SumClosed.

Lemma notneg_add x y : notneg x -> notneg y -> notneg (x + y).
Proof. unfold notneg. rewrite add_spec. apply SFadd_notneg. Qed.

Lemma clear_add x y : clear x -> clear y -> clear (x + y).
Proof. unfold clear. rewrite add_spec. apply SFadd_clear. Qed.

Lemma mean_notneg (a : list float) : Forall notneg a -> notneg (np.mean a).
Proof.
  intros Ha. unfold np.mean, notneg. rewrite div_spec.
  apply SFdiv_notneg; [|apply float_of_nat_clear].
  apply (sum_closed notneg notneg_add); [reflexivity|reflexivity|exact Ha].
Qed.

Lemma sqeuclidean_clear u v : clear (cKDTree.sqeuclidean u v).
Proof.
  unfold cKDTree.sqeuclidean.
  repeat apply clear_add; try reflexivity;
    unfold clear; rewrite mul_spec; apply SFmul_self_clear.
Qed.

Lemma sqrt_clear x : clear x -> clear (sqrt x).
Proof. unfold clear. rewrite sqrt_spec. apply SFsqrt_clear. Qed.

Lemma push_clear m1 m2 d : clear m1 -> clear m2 -> clear d ->
  clear (fst (cKDTree.push (m1, m2) d)) /\ clear (snd (cKDTree.push (m1, m2) d)).
Proof.
  intros. unfold cKDTree.push. destruct (d <? m1); [cbn; auto|].
  destruct (d <? m2); cbn; auto.
Qed.

Lemma query_point_clear t x : clear (snd (cKDTree.query_point t x)).
Proof.
  unfold cKDTree.query_point.
  assert (H : forall l b, clear (fst b) -> clear (snd b) ->
     clear (snd (fold_left (fun best p => cKDTree.push best (cKDTree.sqeuclidean x p)) l b))).
  { induction l as [|p l IH]; intros [m1 m2] H1 H2; [exact H2|].
    cbn [fold_left].
    destruct (push_clear m1 m2 (cKDTree.sqeuclidean x p) H1 H2 (sqeuclidean_clear x p)).
    now apply IH. }
  specialize (H (cKDTree.data t) (infinity, infinity) eq_refl eq_refl).
  destruct (fold_left _ _ _) as [m1 m2]. cbn in *. now apply sqrt_clear.
Qed.

(** The value returned by the function is an average computed by
    [average_nearest] on some working set. *)
Lemma nearest_value (W : Type) (choice : nat -> nat -> bool -> extern W (list nat))
    (points : PointSet) (k : nat) (w : W) (avg : float) :
  value_of (calculate_nearest_neighbor_distance W choice points k w) = Val avg ->
  exists ws, average_nearest ws = Val avg.
Proof.
  unfold value_of, calculate_nearest_neighbor_distance.
  destruct (bind _ _ w) as [[t r] w'] eqn:H. cbn [fst snd]. intros ->.
  apply bind_inv in H as [(e & _ & He)|(t1 & a & w1 & t2 & _ & H & _)];
    [discriminate|].
  apply bind_inv in H as [(e & _ & He)|(t3 & ws & w2 & t4 & _ & H & _)];
    [discriminate|].
  apply bind_inv in H as [(e & _ & He)|(t5 & v & w3 & t6 & Hv & H & _)];
    [discriminate|].
  exists ws. unfold lift in Hv. inversion Hv; subst.
  cbn in H. inversion H; subst. assumption.
Qed.

Lemma average_nearest_notneg (ws : PointSet) (avg : float) :
  average_nearest ws = Val avg -> (avg <? 0) = false.
Proof.
  unfold average_nearest.
  destruct (cKDTree.build ws) as [t|]; [|discriminate].
  unfold cKDTree.query. destruct (cKDTree.all_finite ws); [|discriminate].
  intros H. inversion H; subst. apply notneg_ltb, mean_notneg.
  rewrite map_map. apply Forall_forall. intros d Hd. apply in_map_iff in Hd.
  destruct Hd as (p & <- & _). apply clear_notneg. apply query_point_clear.
Qed.

(** X9: the average nearest-neighbour distance that the function
    returns is never negative (it is at least 0, or NaN), whatever the
    points, the threshold and the sample drawn. *)
Theorem average_never_negative (W : Type)
    (choice : nat -> nat -> bool -> extern W (list nat))
    (points : PointSet) (k : nat) (w : W) (avg : float) :
  value_of (calculate_nearest_neighbor_distance W choice points k w) = Val avg ->
  (avg <? 0) = false.
Proof.
  intros H. destruct (nearest_value W choice points k w avg H) as (ws & Hws).
  now apply average_nearest_notneg with (ws := ws).
Qed.

(** ** NaN *)

Lemma Prim2SF_nan : Prim2SF nan = S754_nan.
Proof. reflexivity. Qed.

Lemma is_nan_eq (x : float) : is_nan x = true -> x = nan.
Proof.
  unfold is_nan. rewrite eqb_spec. intros H.
  apply Prim2SF_inj. rewrite Prim2SF_nan.
  destruct (Prim2SF x) as [s|s| |s m e] eqn:E; try reflexivity; exfalso;
    unfold SFeqb, SFcompare in H.
  - discriminate.
  - destruct s; discriminate.
  - destruct s; rewrite Z.compare_refl in H;
      change (Pos.compare_cont Eq m m) with (Pos.compare m m) in H;
      rewrite Pos.compare_refl in H; discriminate.
Qed.

Lemma add_nan_l y : nan + y = nan.
Proof. apply Prim2SF_inj. now rewrite add_spec, Prim2SF_nan. Qed.

Lemma add_nan_r x : x + nan = nan.
Proof.
  apply Prim2SF_inj. rewrite add_spec, Prim2SF_nan.
  now destruct (Prim2SF x) as [[]|[]| |[] ? ?].
Qed.

Lemma sub_nan_r x : x - nan = nan.
Proof.
  apply Prim2SF_inj. rewrite sub_spec, Prim2SF_nan.
  now destruct (Prim2SF x) as [[]|[]| |[] ? ?].
Qed.

Lemma sub_nan_l y : nan - y = nan.
Proof. apply Prim2SF_inj. now rewrite sub_spec, Prim2SF_nan. Qed.

Lemma div_nan_l y : nan / y = nan.
Proof. apply Prim2SF_inj. now rewrite div_spec, Prim2SF_nan. Qed.

Lemma ltb_nan_r x : (x <? nan) = false.
Proof.
  rewrite ltb_spec, Prim2SF_nan.
  now destruct (Prim2SF x) as [[]|[]| |[] ? ?].
Qed.

Lemma ltb_nan_l y : (nan <? y) = false.
Proof. now rewrite ltb_spec, Prim2SF_nan. Qed.

Lemma minimum_nan_l y : np.minimum nan y = nan.
Proof. unfold np.minimum. change (is_nan nan) with true. now rewrite orb_true_r. Qed.
Lemma maximum_nan_l y : np.maximum nan y = nan.
Proof. unfold np.maximum. change (is_nan nan) with true. now rewrite orb_true_r. Qed.
Lemma minimum_nan_r x : np.minimum x nan = nan.
Proof.
  unfold np.minimum. rewrite ltb_nan_r. cbn.
  destruct (is_nan x) eqn:E; [now apply is_nan_eq|reflexivity].
Qed.
Lemma maximum_nan_r x : np.maximum x nan = nan.
Proof.
  unfold np.maximum. rewrite ltb_nan_l. cbn.
  destruct (is_nan x) eqn:E; [now apply is_nan_eq|reflexivity].
Qed.

Section Absorb.
Variable z : float.
Hypothesis z_l : forall y, z + y = z.
Hypothesis z_r : forall x, x + z = z.

Lemma fold_add_absorbed (a : list float) : fold_left add a z = z.
Proof. induction a as [|x a IH]; cbn; [reflexivity|]. now rewrite z_l. Qed.

Lemma fold_add_absorb (a : list float) (acc : float) :
  In z a -> fold_left add a acc = z.
Proof.
  revert acc. induction a as [|x a IH]; intros acc Hin; [destruct Hin|].
  destruct Hin as [Hx|Hin]; cbn.
  - rewrite Hx, z_r. apply fold_add_absorbed.
  - now apply IH.
Qed.

Ltac absorb := repeat (rewrite z_l || rewrite z_r); try reflexivity.

Lemma tree_absorb (r : np.lanes) :
  lanes_any z r ->
  ((np.r0 r + np.r1 r) + (np.r2 r + np.r3 r))
  + ((np.r4 r + np.r5 r) + (np.r6 r + np.r7 r)) = z.
Proof.
  destruct r as [a0 a1 a2 a3 a4 a5 a6 a7]. unfold lanes_any. cbn.
  intros [H|[H|[H|[H|[H|[H|[H|H]]]]]]]; rewrite H; absorb.
Qed.

Lemma pw_block_absorb (n : nat) :
  forall (a : list float) (r : np.lanes),
    (List.length a <= n)%nat -> lanes_any z r \/ In z a -> np.pw_block r a = z.
Proof.
  induction n as [|n IH]; intros a r Hlen H.
  - destruct a; [|cbn in Hlen; lia]. destruct H as [H|[]].
    cbn. now apply tree_absorb.
  - assert (Hshort : np.pw_block r a = z \/
              exists a0 a1 a2 a3 a4 a5 a6 a7 rest,
                a = a0 :: a1 :: a2 :: a3 :: a4 :: a5 :: a6 :: a7 :: rest).
    { destruct a as [|a0 [|a1 [|a2 [|a3 [|a4 [|a5 [|a6 [|a7 rest]]]]]]]];
        try (left; cbn [np.pw_block];
             destruct H as [H|H];
             [rewrite (tree_absorb r H); apply fold_add_absorbed
             |now apply fold_add_absorb]).
      right. now exists a0, a1, a2, a3, a4, a5, a6, a7, rest. }
    destruct Hshort as [Hs|(a0&a1&a2&a3&a4&a5&a6&a7&rest&->)]; [exact Hs|].
    cbn [np.pw_block]. apply IH; [cbn in Hlen; lia|].
    destruct H as [H|H].
    + left. destruct r as [b0 b1 b2 b3 b4 b5 b6 b7]. unfold lanes_any in *. cbn in *.
      destruct H as [H|[H|[H|[H|[H|[H|[H|H]]]]]]]; rewrite H, z_l; auto 10.
    + cbn in H.
      destruct H as [H|[H|[H|[H|[H|[H|[H|[H|H]]]]]]]];
        try solve [left; unfold lanes_any; cbn; rewrite H, z_r; auto 10].
      now right.
Qed.

Lemma In_firstn_skipn {A} (x : A) n (l : list A) :
  In x l -> In x (firstn n l) \/ In x (skipn n l).
Proof.
  intros H. rewrite <- (firstn_skipn n l) in H. now apply in_app_or in H.
Qed.

Lemma pairwise_sum_absorb (fuel : nat) :
  forall a, In z a -> np.pairwise_sum fuel a = z.
Proof.
  assert (Hblock : forall a, In z a ->
    match a with
    | a0 :: a1 :: a2 :: a3 :: a4 :: a5 :: a6 :: a7 :: rest =>
        np.pw_block (np.Lanes a0 a1 a2 a3 a4 a5 a6 a7) rest
    | _ => fold_left add a neg_zero
    end = z).
  { intros a Hin.
    destruct a as [|a0 [|a1 [|a2 [|a3 [|a4 [|a5 [|a6 [|a7 rest]]]]]]]];
      try (now apply fold_add_absorb).
    apply (pw_block_absorb (List.length rest)); [lia|].
    cbn in Hin.
    destruct Hin as [H|[H|[H|[H|[H|[H|[H|[H|H]]]]]]]];
      try solve [left; unfold lanes_any; cbn; auto 10].
    now right. }
  induction fuel as [|f IH]; intros a Hin; cbn [np.pairwise_sum].
  - destruct (_ <? 8)%nat; [now apply fold_add_absorb|].
    destruct (_ <=? 128)%nat; [now apply Hblock|now apply fold_add_absorb].
  - destruct (_ <? 8)%nat; [now apply fold_add_absorb|].
    destruct (_ <=? 128)%nat; [now apply Hblock|].
    destruct (In_firstn_skipn z (List.length a / 2 - (List.length a / 2) mod 8) a Hin)
      as [H|H].
    + rewrite (IH _ H). apply z_l.
    + rewrite (IH (skipn _ a) H). apply z_r.
Qed.

Lemma sum_absorb (a : list float) : In z a -> np.sum a = z.
Proof. intros H. unfold np.sum. rewrite (pairwise_sum_absorb _ _ H). apply z_r. Qed.

End Absorb.

Lemma sum_nan (a : list float) : In nan a -> np.sum a = nan.
Proof. apply sum_absorb; [apply add_nan_l|apply add_nan_r]. Qed.

Lemma mean_nan (a : list float) : In nan a -> np.mean a = nan.
Proof. intros H. unfold np.mean. rewrite (sum_nan a H). apply div_nan_l. Qed.

Lemma std_nan (a : list float) : In nan a -> np.std a = nan.
Proof.
  intros H. unfold np.std. rewrite (sum_nan a H), div_nan_l.
  rewrite sum_nan; [now rewrite div_nan_l|].
  apply in_map_iff. exists nan. split; [|exact H]. reflexivity.
Qed.

Lemma fold_minimum_nan (r : list float) (acc : float) :
  acc = nan \/ In nan r -> fold_left np.minimum r acc = nan.
Proof.
  revert acc. induction r as [|y r IH]; intros acc [H|H]; cbn.
  - exact H.
  - destruct H.
  - subst. apply IH. left. apply minimum_nan_l.
  - destruct H as [Hy|H]; [subst y|]; apply IH;
      [left; apply minimum_nan_r|now right].
Qed.

Lemma fold_maximum_nan (r : list float) (acc : float) :
  acc = nan \/ In nan r -> fold_left np.maximum r acc = nan.
Proof.
  revert acc. induction r as [|y r IH]; intros acc [H|H]; cbn.
  - exact H.
  - destruct H.
  - subst. apply IH. left. apply maximum_nan_l.
  - destruct H as [Hy|H]; [subst y|]; apply IH;
      [left; apply maximum_nan_r|now right].
Qed.

Lemma column_nan (col : list float) :
  In nan col ->
  np.min col = Val nan /\ np.max col = Val nan /\
  np.mean col = nan /\ np.std col = nan.
Proof.
  intros H. split; [|split; [|split]].
  - destruct col as [|x r]; [destruct H|]. cbn. f_equal.
    apply fold_minimum_nan. destruct H; auto.
  - destruct col as [|x r]; [destruct H|]. cbn. f_equal.
    apply fold_maximum_nan. destruct H; auto.
  - now apply mean_nan.
  - now apply std_nan.
Qed.


Lemma sub_nan_both (a b : float) : a = nan -> b = nan -> a - b = nan.
Proof. intros -> ->. reflexivity. Qed.

(** X7: a NaN coordinate poisons its axis: as soon as one point has a
    NaN coordinate on an axis, the minimum, maximum, extent, mean and
    standard deviation of that axis are all NaN (and no error is
    raised). *)
Theorem nan_poisons_axis (W : Type) (points : PointSet) (w : W) (p : Point) :
  In p points ->
  exists t stats,
    calculate_statistics W points w = (t, Val stats, w) /\
    (is_nan (px p) = true ->
     x_min stats = nan /\ x_max stats = nan /\ x_extent stats = nan /\
     x_mean stats = nan /\ x_std stats = nan) /\
    (is_nan (py p) = true ->
     y_min stats = nan /\ y_max stats = nan /\ y_extent stats = nan /\
     y_mean stats = nan /\ y_std stats = nan) /\
    (is_nan (pz p) = true ->
     z_min stats = nan /\ z_max stats = nan /\ z_extent stats = nan /\
     z_mean stats = nan /\ z_std stats = nan).
Proof.
  intros Hin.
  assert (Hcol : forall f : Point -> float,
            is_nan (f p) = true -> In nan (map f points)).
  { intros f Hf. apply is_nan_eq in Hf. rewrite <- Hf. now apply in_map. }
  destruct points as [|q qs]; [destruct Hin|].
  do 2 eexists. split; [reflexivity|].
  cbn [x_min x_max x_extent x_mean x_std y_min y_max y_extent y_mean y_std
       z_min z_max z_extent z_mean z_std].
  split; [|split]; intros Hn;
    match type of Hn with
    | is_nan (?f p) = true =>
        destruct (column_nan _ (Hcol f Hn)) as (Hmin & Hmax & Hmean & Hstd)
    end;
    cbn [map np.min np.max] in Hmin, Hmax;
    injection Hmin as Hmin'; injection Hmax as Hmax';
    repeat split;
    first [ exact Hmin' | exact Hmax' | exact Hmean | exact Hstd
          | apply sub_nan_both; [exact Hmax'|exact Hmin'] ].
Qed.

(** ** Differences of ordered values *)

Local Open Scope Z_scope.

Lemma digits2_bounds (m : positive) :
  2 ^ (Zpos (digits2_pos m) - 1) <= Zpos m < 2 ^ Zpos (digits2_pos m).
Proof.
  induction m as [p IH|p IH|]; cbn [digits2_pos].
  - rewrite Pos2Z.inj_succ.
    replace (Z.succ (Zpos (digits2_pos p)) - 1)
      with (Z.succ (Zpos (digits2_pos p) - 1)) by lia.
    rewrite !Z.pow_succ_r by lia. lia.
  - rewrite Pos2Z.inj_succ.
    replace (Z.succ (Zpos (digits2_pos p)) - 1)
      with (Z.succ (Zpos (digits2_pos p) - 1)) by lia.
    rewrite !Z.pow_succ_r by lia. lia.
  - cbn. lia.
Qed.

Lemma shl_align_value (m : positive) (e e' : Z) :
  e' <= e -> Zpos (fst (shl_align m e e')) = Zpos m * 2 ^ (e - e').
Proof.
  intros H. unfold shl_align.
  destruct (e' - e) as [|d|d] eqn:E; cbn [fst].
  - replace (e - e') with 0 by lia. cbn. lia.
  - lia.
  - replace (e - e') with (Zpos d) by lia.
    change (Pos.iter xO m d) with (shift_pos d m).
    rewrite shift_pos_correct. change (Z.pow_pos 2 d) with (2 ^ Zpos d). lia.
Qed.

Lemma canonical_small (m : positive) (e : Z) :
  canonical_mantissa prec emax m e = true ->
  Zpos m < 2 ^ 53 /\ -1074 <= e.
Proof.
  unfold canonical_mantissa, fexp, emin, prec, emax. rewrite Z.eqb_eq.
  intros H. pose proof (digits2_bounds m) as [_ Hd].
  split; [|lia].
  apply Z.lt_le_trans with (1 := Hd).
  apply Z.pow_le_mono_r; lia.
Qed.

Lemma canonical_large (m : positive) (e : Z) :
  canonical_mantissa prec emax m e = true -> -1074 < e ->
  2 ^ 52 <= Zpos m.
Proof.
  unfold canonical_mantissa, fexp, emin, prec, emax. rewrite Z.eqb_eq.
  intros H He. pose proof (digits2_bounds m) as [Hd _].
  replace (Zpos (digits2_pos m)) with 53 in Hd by lia. exact Hd.
Qed.

(** Of two canonical positive values, the one with the larger exponent
    has the larger aligned mantissa. *)
Lemma aligned_lt (m1 m2 : positive) (e1 e2 : Z) :
  canonical_mantissa prec emax m1 e1 = true ->
  canonical_mantissa prec emax m2 e2 = true ->
  e1 < e2 ->
  Zpos (fst (shl_align m1 e1 (Z.min e2 e1)))
    <= Zpos (fst (shl_align m2 e2 (Z.min e2 e1))).
Proof.
  intros H1 H2 He.
  rewrite !shl_align_value by lia.
  replace (Z.min e2 e1) with e1 by lia.
  rewrite Z.sub_diag, Z.mul_1_r.
  destruct (canonical_small _ _ H1) as [Hs Hm].
  pose proof (canonical_large _ _ H2 ltac:(lia)) as Hl.
  assert (Hp : 2 ^ 1 <= 2 ^ (e2 - e1)) by (apply Z.pow_le_mono_r; lia).
  change (2 ^ 1) with 2 in Hp.
  change (2 ^ 53) with (2 * 2 ^ 52) in Hs.
  nia.
Qed.

Lemma normalize_notneg (z e : Z) :
  0 <= z -> sf_notneg (binary_normalize prec emax z e false) = true.
Proof.
  destruct z; cbn; intros H; try reflexivity; [|lia].
  apply clear_notneg, round_clear.
Qed.

Lemma compare_cont_le (m1 m2 : positive) :
  Pos.compare_cont Eq m1 m2 <> Gt -> (Zpos m1 <= Zpos m2).
Proof. change (Pos.compare_cont Eq m1 m2) with (Pos.compare m1 m2). intros H. apply Pos2Z.pos_le_pos. exact H. Qed.

Lemma compare_cont_ge (m1 m2 : positive) :
  Pos.compare_cont Eq m1 m2 <> Lt -> (Zpos m2 <= Zpos m1).
Proof. change (Pos.compare_cont Eq m1 m2) with (Pos.compare m1 m2). intros H. apply Pos2Z.pos_le_pos, Pos.ge_le. exact H. Qed.

(** The difference of two values in order is NaN, a zero or positive. *)
Lemma SFsub_leb (a b : spec_float) :
  valid_binary a = true -> valid_binary b = true ->
  SFleb a b = true -> sf_notneg (SF64sub b a) = true.
Proof.
  unfold SF64sub, SFsub, SFleb, SFcompare.
  destruct a as [sa|sa| |sa ma ea]; destruct b as [sb|sb| |sb mb eb];
    try (destruct sa); try (destruct sb); cbn [valid_binary sf_notneg negb];
    try reflexivity; try discriminate; intros Va Vb.
  - (* both negative *)
    apply andb_prop in Va as [Va _]. apply andb_prop in Vb as [Vb _].
    destruct (Z.compare_spec ea eb) as [E|E|E]; try discriminate.
    + subst eb. intros H. apply normalize_notneg. cbn [cond_Zopp].
      rewrite !shl_align_value by lia.
      assert (Zpos mb <= Zpos ma).
      { apply compare_cont_ge. intros C. rewrite C in H. discriminate. }
      replace (Z.min ea ea) with ea by lia. rewrite Z.sub_diag. lia.
    + intros _. apply normalize_notneg. cbn [cond_Zopp].
      pose proof (aligned_lt mb ma eb ea Vb Va E) as Hle.
      replace (Z.min eb ea) with (Z.min ea eb) by lia. lia.
  - (* a < 0 <= b *)
    intros _. apply normalize_notneg. cbn [cond_Zopp]. lia.
  - (* both positive *)
    apply andb_prop in Va as [Va _]. apply andb_prop in Vb as [Vb _].
    destruct (Z.compare_spec ea eb) as [E|E|E]; try discriminate.
    + subst eb. intros H. apply normalize_notneg. cbn [cond_Zopp].
      rewrite !shl_align_value by lia.
      assert (Zpos ma <= Zpos mb).
      { apply compare_cont_le. intros C. rewrite C in H. discriminate. }
      replace (Z.min ea ea) with ea by lia. rewrite Z.sub_diag. lia.
    + intros _. apply normalize_notneg. cbn [cond_Zopp].
      pose proof (aligned_lt ma mb ea eb Va Vb E) as Hle. lia.
Qed.

Lemma sub_leb (a b : float) : (a <=? b)%float = true -> notneg (b - a)%float.
Proof.
  rewrite leb_spec. unfold notneg. rewrite sub_spec.
  apply SFsub_leb; apply Prim2SF_valid.
Qed.

Local Open Scope float_scope.


Lemma column_extent (x : float) (r : list float) :
  notneg (fold_left np.maximum r x - fold_left np.minimum r x).
Proof.
  destruct (Forall_Exists_dec (fun v => is_nan v = false)
              (fun v => bool_dec (is_nan v) false) (x :: r)) as [Hn|Hex].
  - apply sub_leb.
    destruct (min_max_bounds x r x Hn (or_introl eq_refl)) as [Hlo Hup].
    exact (leb_trans _ _ _ Hlo Hup).
  - apply Exists_exists in Hex as (v & Hin & Hv).
    apply not_false_iff_true, is_nan_eq in Hv. subst v.
    destruct (column_nan (x :: r) Hin) as (Hmin & _).
    cbn [np.min] in Hmin. injection Hmin as Hmin. rewrite Hmin.
    rewrite sub_nan_r. reflexivity.
Qed.

(** X17: no extent is negative: on each axis the extent that
    [calculate_statistics] stores, max - min, is at least 0 or is NaN
    (with a NaN coordinate, or with infinities of one sign only),
    whatever the points are. *)
Theorem extent_never_negative (W : Type) (points : PointSet) (w w' : W)
    (t : trace) (stats : Stats) :
  calculate_statistics W points w = (t, Val stats, w') ->
  (x_extent stats <? 0) = false /\
  (y_extent stats <? 0) = false /\
  (z_extent stats <? 0) = false.
Proof.
  destruct points as [|p ps]; [discriminate|].
  intros H. inversion H; subst. cbn [x_extent y_extent z_extent map].
  repeat split; apply notneg_ltb, column_extent.
Qed.

(** ** Coincident points *)

Lemma Prim2SF_zero : Prim2SF 0 = S754_zero false.
Proof. reflexivity. Qed.

Lemma finite_cases (x : float) :
  np.isfinite x = true ->
  match Prim2SF x with S754_zero _ | S754_finite _ _ _ => True | _ => False end.
Proof.
  unfold np.isfinite, is_finite, is_nan, is_infinity.
  rewrite !eqb_spec, abs_spec.
  change (Prim2SF infinity) with (S754_infinity false).
  destruct (Prim2SF x) as [[]|[]| |[] m e]; cbn; try discriminate; auto.
Qed.

Lemma sub_self (x : float) : np.isfinite x = true -> x - x = 0.
Proof.
  intros H. apply finite_cases in H.
  apply Prim2SF_inj. rewrite sub_spec, Prim2SF_zero.
  destruct (Prim2SF x) as [[]|[]| |s m e]; try contradiction; try reflexivity.
  unfold SF64sub, SFsub. rewrite Z.sub_diag. reflexivity.
Qed.

Lemma sqeuclidean_self (p : Point) :
  cKDTree.finite_point p = true -> cKDTree.sqeuclidean p p = 0.
Proof.
  unfold cKDTree.finite_point. intros H.
  apply andb_prop in H as [H Hz]. apply andb_prop in H as [Hx Hy].
  unfold cKDTree.sqeuclidean. rewrite !sub_self by assumption. reflexivity.
Qed.

Lemma clear_ltb_zero d : clear d -> (d <? 0) = false.
Proof. intros H. apply notneg_ltb, clear_notneg, H. Qed.

Lemma ltb_pos0 d m : clear d -> (d <? m) = true -> pos0 d.
Proof.
  unfold clear, pos0. rewrite ltb_spec.
  destruct (Prim2SF d) as [[]|[]| |[] ? ?]; cbn; try discriminate; auto.
Qed.

Lemma pos0_zero m : pos0 m -> (0 <? m) = false -> m = 0.
Proof.
  unfold pos0. rewrite ltb_spec, Prim2SF_zero. intros H1 H2.
  apply Prim2SF_inj. rewrite Prim2SF_zero.
  destruct (Prim2SF m) as [[]|[]| |[] ? ?]; cbn in *; try discriminate; auto.
Qed.

Lemma push_st0 b d : st0 b -> clear d -> st0 (cKDTree.push b d).
Proof.
  destruct b as [m1 m2]. intros [H1 H2] Hd. unfold cKDTree.push, st0.
  destruct (d <? m1) eqn:E1; cbn; [split; eauto using ltb_pos0|].
  destruct (d <? m2) eqn:E2; cbn; split; eauto using ltb_pos0.
Qed.

Lemma push_st0_zero b : st0 b -> st1 (cKDTree.push b 0).
Proof.
  destruct b as [m1 m2]. intros [H1 H2]. unfold cKDTree.push, st1.
  cbn [fst snd] in *.
  destruct (0 <? m1) eqn:E1; cbn; [split; auto|].
  pose proof (pos0_zero m1 H1 E1) as ->.
  destruct (0 <? m2) eqn:E2; cbn; split; auto.
Qed.

Lemma push_st1 b d : st1 b -> clear d -> st1 (cKDTree.push b d).
Proof.
  destruct b as [m1 m2]. intros [H1 H2] Hd. cbn [fst snd] in *. subst m1.
  unfold cKDTree.push, st1. rewrite (clear_ltb_zero d Hd).
  destruct (d <? m2) eqn:E2; cbn; split; eauto using ltb_pos0.
Qed.

Lemma push_st1_zero b : st1 b -> cKDTree.push b 0 = (0, 0).
Proof.
  destruct b as [m1 m2]. intros [H1 H2]. cbn [fst snd] in *. subst m1.
  unfold cKDTree.push. change (0 <? 0) with false. cbn match.
  destruct (0 <? m2) eqn:E2; [reflexivity|].
  now rewrite (pos0_zero m2 H2 E2).
Qed.

Lemma push_zero d : clear d -> cKDTree.push (0, 0) d = (0, 0).
Proof. intros Hd. unfold cKDTree.push. now rewrite (clear_ltb_zero d Hd). Qed.

Section Scan.
Variable x : Point.

Lemma scan_st0 l b : st0 b -> st0 (fold_left (scan_step x) l b).
Proof.
  revert b. induction l as [|p l IH]; intros b Hb; [exact Hb|].
  cbn. apply IH, push_st0; [exact Hb|apply sqeuclidean_clear].
Qed.

Lemma scan_st1 l b : st1 b -> st1 (fold_left (scan_step x) l b).
Proof.
  revert b. induction l as [|p l IH]; intros b Hb; [exact Hb|].
  cbn. apply IH, push_st1; [exact Hb|apply sqeuclidean_clear].
Qed.

Lemma scan_zero l : fold_left (scan_step x) l (0, 0) = (0, 0).
Proof.
  induction l as [|p l IH]; [reflexivity|].
  cbn [fold_left]. replace (scan_step x (0, 0) p) with (0, 0); [exact IH|].
  symmetry. apply push_zero, sqeuclidean_clear.
Qed.
End Scan.

Lemma query_point_duplicate (l1 l2 l3 : PointSet) (p : Point) :
  cKDTree.finite_point p = true ->
  cKDTree.query_point (cKDTree.Tree (l1 ++ p :: l2 ++ p :: l3)) p = (0, 0).
Proof.
  intros Hp. unfold cKDTree.query_point. cbn [cKDTree.data].
  rewrite fold_left_app. cbn [fold_left]. rewrite fold_left_app. cbn [fold_left].
  rewrite (sqeuclidean_self p Hp).
  pose proof (scan_st0 p l1 (infinity, infinity) (conj eq_refl eq_refl)) as H0.
  apply push_st0_zero in H0.
  apply (scan_st1 p l2) in H0.
  apply push_st1_zero in H0.
  pose proof (scan_zero p l3) as Hz.
  unfold scan_step in H0, Hz. cbv zeta in H0 |- *.
  rewrite H0, Hz. reflexivity.
Qed.

(** X8: a point that occurs twice in a finite working set is its own
    nearest neighbour: the query succeeds, the average is taken over
    its second column, and the rows at both positions of the point are
    (0, 0), wherever the two occurrences are and whatever the other
    points are. Duplicates are kept, not filtered. *)
Theorem duplicate_distance_zero (l1 l2 l3 : PointSet) (p : Point) :
  cKDTree.all_finite (l1 ++ p :: l2 ++ p :: l3) = true ->
  exists distances,
    cKDTree.query (cKDTree.Tree (l1 ++ p :: l2 ++ p :: l3))
                  (l1 ++ p :: l2 ++ p :: l3) = Val distances /\
    average_nearest (l1 ++ p :: l2 ++ p :: l3)
      = Val (np.mean (map snd distances)) /\
    nth_error distances (List.length l1) = Some (0, 0) /\
    nth_error distances (List.length l1 + S (List.length l2)) = Some (0, 0).
Proof.
  intros Hall.
  assert (Hp : cKDTree.finite_point p = true).
  { unfold cKDTree.all_finite in Hall. rewrite forallb_forall in Hall.
    apply Hall, in_or_app. right. now left. }
  pose proof (query_point_duplicate l1 l2 l3 p Hp) as Hq.
  eexists. split; [unfold cKDTree.query; rewrite Hall; reflexivity|].
  split.
  { unfold average_nearest, cKDTree.build, cKDTree.query.
    rewrite Hall. reflexivity. }
  rewrite !nth_error_map.
  split.
  - rewrite nth_error_app2 by lia. rewrite Nat.sub_diag. cbn. now rewrite Hq.
  - rewrite nth_error_app2 by lia.
    replace (List.length l1 + S (List.length l2) - List.length l1)%nat
      with (S (List.length l2)) by lia.
    cbn [nth_error]. rewrite nth_error_app2 by lia. rewrite Nat.sub_diag.
    cbn. now rewrite Hq.
Qed.

Local Open Scope string_scope.
Local Open Scope Z_scope.
Local Open Scope float_scope.
Local Open Scope py_scope.
Local Open Scope list_scope.

(** * Runs on concrete inputs *)

(** ** Parsing *)

Example float_of_nan : PyFloat.float_of_str "nan" = Some nan.
Proof. reflexivity. Qed.

Example float_of_inf : PyFloat.float_of_str "inf" = Some infinity.
Proof. reflexivity. Qed.

Example float_of_neg_inf : PyFloat.float_of_str "-inf" = Some neg_infinity.
Proof. reflexivity. Qed.

Example float_of_infinity : PyFloat.float_of_str "Infinity" = Some infinity.
Proof. reflexivity. Qed.

Example float_of_text : PyFloat.float_of_str "bad" = None.
Proof. reflexivity. Qed.

Example float_of_overflow : PyFloat.float_of_str "1e999" = Some infinity.
Proof. vm_compute. reflexivity. Qed.

Example float_of_underscores :
  PyFloat.float_of_str "1_000.5" = PyFloat.float_of_str "1000.5" /\
  PyFloat.float_of_str "1__0" = None /\
  PyFloat.float_of_str "_1" = None.
Proof. repeat split; vm_compute; reflexivity. Qed.

Example parse_line_commas :
  parse_line "  1.5,2.5, -3e2 255 extra" = parse_line "1.5 2.5 -300".
Proof. vm_compute. reflexivity. Qed.

Example parse_line_header : parse_line "x y z" = None.
Proof. vm_compute. reflexivity. Qed.

Example readlines_terminators :
  PyStr.readlines
    (String "a" (String PyStr.CR (String PyStr.LF
       (String "b" (String PyStr.CR (String "c" EmptyString))))))
  = [String "a" PyStr.newline; String "b" PyStr.newline; "c"].
Proof. reflexivity. Qed.

Lemma example_end_to_end_witness :
  Sim.fs_read (Sim.world_of Sim.example_text) "in.xyz" = Val Sim.example_text /\
  exists t1 t2 t3 stats,
    Sim.parse_xyz_file "in.xyz" (Sim.world_of Sim.example_text)
      = (t1, Val example_points, Sim.world_of Sim.example_text) /\
    List.length example_points = 3%nat /\
    calculate_statistics Sim.World example_points (Sim.world_of Sim.example_text)
      = (t2, Val stats, Sim.world_of Sim.example_text) /\
    x_extent stats = 1 /\ y_extent stats = 1 /\ z_extent stats = 0 /\
    Sim.calculate_nearest_neighbor_distance example_points 1000
      (Sim.world_of Sim.example_text)
      = (t3, Val 1, Sim.world_of Sim.example_text).
Proof.
  split; [reflexivity|].
  apply (example_end_to_end Sim.World Sim.fs_read Sim.os_path_basename
                            Sim.np_random_choice).
  reflexivity.
Defined.

Lemma no_valid_points_message :
  value_of (Sim.parse_xyz_file "in.xyz" (Sim.world_of Sim.garbage_text))
    = Raise (ValueError "No valid points found in file") /\
  "No valid points found in file" <> "no valid points".
Proof. split; [vm_compute; reflexivity|discriminate]. Qed.

Lemma garbage_lines_skipped (line : string) :
  In line (PyStr.readlines Sim.garbage_text) -> parse_line line = None.
Proof.
  intros Hin. vm_compute in Hin.
  repeat (destruct Hin as [<-|Hin]; [vm_compute; reflexivity|]).
  contradiction.
Qed.

Lemma parse_no_valid_points_witness :
  Sim.fs_read (Sim.world_of Sim.garbage_text) "in.xyz" = Val Sim.garbage_text /\
  (forall line,
      In line (PyStr.readlines Sim.garbage_text) -> parse_line line = None) /\
  value_of (Sim.parse_xyz_file "in.xyz" (Sim.world_of Sim.garbage_text))
    = Raise no_valid_points /\
  exc_type no_valid_points = "ValueError" /\
  exc_str no_valid_points = "No valid points found in file" /\
  (forall w2 path2 points,
      value_of (Sim.parse_xyz_file path2 w2) = Val points -> points <> []).
Proof.
  split; [reflexivity|]. split; [exact garbage_lines_skipped|].
  exact (parse_no_valid_points Sim.World Sim.fs_read Sim.os_path_basename
           (Sim.world_of Sim.garbage_text) "in.xyz" Sim.garbage_text
           eq_refl garbage_lines_skipped).
Defined.

(** ** Statistics *)

(** Zeros of both signs: the reductions keep the later of two equal
    elements, and a sum of negative zeros is [+0.0]. *)
Example zeros_of_both_signs :
  np.min [zero; neg_zero] = Val neg_zero /\
  np.max [zero; neg_zero] = Val neg_zero /\
  np.min [neg_zero; zero] = Val zero /\
  np.mean [neg_zero; neg_zero; neg_zero] = zero.
Proof. repeat split; vm_compute; reflexivity. Qed.

Example basename_of_path :
  Sim.os_path_basename "data/scans/in.xyz" = "in.xyz" /\
  Sim.os_path_basename "in.xyz" = "in.xyz" /\
  exc_str (Sim.not_found "missing.xyz")
    = "[Errno 2] No such file or directory: 'missing.xyz'".
Proof. repeat split; reflexivity. Qed.

Lemma repeated_point_counterexample :
  repeated_points
    = [mkPoint 0x1.999999999999ap-4 0x1.999999999999ap-4 0x1.999999999999ap-4;
       mkPoint 0x1.999999999999ap-4 0x1.999999999999ap-4 0x1.999999999999ap-4;
       mkPoint 0x1.999999999999ap-4 0x1.999999999999ap-4 0x1.999999999999ap-4] /\
  exists stats,
    value_of (calculate_statistics unit repeated_points tt) = Val stats /\
    x_max stats = 0x1.999999999999ap-4 /\
    x_mean stats = 0x1.999999999999bp-4 /\
    (x_mean stats <=? x_max stats) = false /\
    (x_std stats =? 0) = false.
Proof.
  split; [vm_compute; reflexivity|].
  eexists. split; [vm_compute; reflexivity|].
  repeat split; vm_compute; reflexivity.
Qed.

Example mean_below_min :
  exists stats,
    value_of (calculate_statistics unit
                (parse_lines ["0.7 0 0"; "0.7 0 0"; "0.7 0 0"]) tt) = Val stats /\
    (x_min stats <=? x_mean stats) = false.
Proof. eexists. split; vm_compute; reflexivity. Qed.

Example nonfinite_statistics :
  exists stats,
    value_of (calculate_statistics unit
                (parse_lines ["nan inf -inf"; "1 2 3"]) tt) = Val stats /\
    x_mean stats = nan /\ y_max stats = infinity /\ z_min stats = neg_infinity /\
    x_std stats = nan /\ (0 <=? x_std stats) = false.
Proof. eexists. repeat split; vm_compute; reflexivity. Qed.

Lemma statistics_spec_witness :
  example_points <> [] /\
  exists t stats,
    calculate_statistics unit example_points tt = (t, Val stats, tt) /\
    count stats = List.length example_points /\
    axis_spec (map px example_points) (x_min stats) (x_max stats)
              (x_extent stats) (x_mean stats) (x_std stats) /\
    axis_spec (map py example_points) (y_min stats) (y_max stats)
              (y_extent stats) (y_mean stats) (y_std stats) /\
    axis_spec (map pz example_points) (z_min stats) (z_max stats)
              (z_extent stats) (z_mean stats) (z_std stats).
Proof.
  split; [discriminate|].
  apply (statistics_spec unit example_points tt). discriminate.
Defined.

(** ** Nearest neighbours *)

(** C2: the defect at the failing input. The file whose only line is
    "5 5 5" parses to one point, which is the whole working set; the
    k=2 query has no second neighbour to report and pads column 1 with
    infinity; the function takes that padding for the distance to the
    nearest neighbour, returns +infinity without any error, prints it
    as the average, and [main] ends with status 0 and a success
    result. *)
Theorem single_point_reported_as_success :
  parse_lines (PyStr.readlines (Sim.lines ["5 5 5"])) = [mkPoint 5 5 5] /\
  cKDTree.query (cKDTree.Tree [mkPoint 5 5 5]) [mkPoint 5 5 5]
    = Val [(0, infinity)] /\
  value_of (Sim.calculate_nearest_neighbor_distance [mkPoint 5 5 5] 1000
              (Sim.world_of (Sim.lines ["5 5 5"]))) = Val infinity /\
  In (Stdout [Lit "[Analysis] Average nearest neighbor distance: ";
              Fmt (PFloat infinity) ".4f"])
     (trace_of (Sim.main Sim.argv (Sim.world_of (Sim.lines ["5 5 5"])))) /\
  status_of (Sim.main Sim.argv (Sim.world_of (Sim.lines ["5 5 5"]))) = Exit 0 /\
  json_results (trace_of (Sim.main Sim.argv (Sim.world_of (Sim.lines ["5 5 5"]))))
    = [success_json "out.pdf" 1.5 1].
Proof.
  split; [vm_compute; reflexivity|].
  split; [vm_compute; reflexivity|].
  split; [vm_compute; reflexivity|].
  split; [|split; vm_compute; reflexivity].
  vm_compute. repeat (try (left; reflexivity); right).
Qed.

Lemma single_point_value :
  parse_lines ["5 5 5"] = [mkPoint 5 5 5] /\
  value_of (Sim.calculate_nearest_neighbor_distance
              (parse_lines ["5 5 5"]) 1000 (Sim.world_of ""))
    = Val infinity.
Proof. split; vm_compute; reflexivity. Qed.

Lemma single_point_average_example :
  (1 <= 1000)%nat /\
  average_nearest [mkPoint 5 5 5]
    = (if cKDTree.finite_point (mkPoint 5 5 5)
       then Val infinity else Raise not_finite) /\
  value_of (Sim.calculate_nearest_neighbor_distance [mkPoint 5 5 5] 1000
              (Sim.world_of ""))
    = (if cKDTree.finite_point (mkPoint 5 5 5)
       then Val infinity else Raise not_finite).
Proof.
  assert (H : (1 <= 1000)%nat) by lia.
  split; [exact H|].
  exact (single_point_average Sim.World Sim.np_random_choice (mkPoint 5 5 5)
           1000 (Sim.world_of "") H).
Defined.

Example coincident_points :
  average_nearest (parse_lines ["1 2 3"; "1 2 3"; "4 5 6"])
  = Val (np.mean [0; 0; sqrt 27]).
Proof. vm_compute. reflexivity. Qed.

Lemma same_input_different_average :
  value_of (Sim.calculate_nearest_neighbor_distance line_points 1000
              (Sim.world_drawing draw_a)) = Val 1 /\
  exists v,
    value_of (Sim.calculate_nearest_neighbor_distance line_points 1000
                (Sim.world_drawing draw_b)) = Val v /\
    (v =? 1) = false.
Proof.
  split; [vm_compute; reflexivity|].
  eexists. split; vm_compute; reflexivity.
Qed.

Lemma nearest_seedless_witness :
  Sim.np_random_choice (List.length line_points) 1000 false
      (Sim.world_drawing draw_a)
    = (Val draw_a, Sim.mkWorld [] [] [] []) /\
  take line_points draw_a = Val (firstn 1000 line_points) /\
  value_of (Sim.calculate_nearest_neighbor_distance line_points 1000
              (Sim.world_drawing draw_a))
    = average_nearest
        (if (1000 <? List.length line_points)%nat
         then firstn 1000 line_points else line_points) /\
  ((List.length line_points <= 1000)%nat ->
   value_of (Sim.calculate_nearest_neighbor_distance line_points 1000
               (Sim.world_drawing draw_b))
     = value_of (Sim.calculate_nearest_neighbor_distance line_points 1000
                   (Sim.world_drawing draw_a))) /\
  exists (pts : PointSet) (d1 d2 : list nat),
    valid_draw (List.length pts) 1000 d1 /\
    valid_draw (List.length pts) 1000 d2 /\
    value_of (Sim.calculate_nearest_neighbor_distance pts 1000
                (Sim.world_drawing d1))
      <> value_of (Sim.calculate_nearest_neighbor_distance pts 1000
                     (Sim.world_drawing d2)).
Proof.
  assert (Htake : take line_points draw_a = Val (firstn 1000 line_points))
    by (vm_compute; reflexivity).
  split; [reflexivity|]. split; [exact Htake|].
  exact (nearest_seedless Sim.World Sim.World Sim.np_random_choice
           Sim.np_random_choice line_points 1000
           (Sim.world_drawing draw_a) (Sim.mkWorld [] [] [] [])
           (Sim.world_drawing draw_b) draw_a (firstn 1000 line_points)
           (fun _ => conj eq_refl Htake)).
Defined.



Lemma nonfinite_counterexample :
  parse_lines (PyStr.readlines Sim.nonfinite_text)
    = [mkPoint nan infinity neg_infinity; mkPoint infinity 0 0] /\
  value_of (Sim.calculate_nearest_neighbor_distance
              (parse_lines (PyStr.readlines Sim.nonfinite_text)) 1000
              (Sim.world_of Sim.nonfinite_text))
    = Raise not_finite /\
  (forall ws v, cKDTree.all_finite ws = false -> average_nearest ws <> Val v).
Proof.
  split; [vm_compute; reflexivity|]. split; [vm_compute; reflexivity|].
  intros ws v H. unfold average_nearest, cKDTree.build. rewrite H. discriminate.
Qed.

Lemma nonfinite_line_accepted_witness :
  PyStr.is_empty (PyStr.strip "nan inf -inf") = false /\
  PyStr.startswith_hash (PyStr.strip "nan inf -inf") = false /\
  PyStr.split (PyStr.replace_comma (PyStr.strip "nan inf -inf"))
    = ["nan"; "inf"; "-inf"] /\
  PyFloat.float_of_str "nan" = Some nan /\
  PyFloat.float_of_str "inf" = Some infinity /\
  PyFloat.float_of_str "-inf" = Some neg_infinity /\
  parse_line "nan inf -inf" = Some (mkPoint nan infinity neg_infinity) /\
  (forall before after,
      In (mkPoint nan infinity neg_infinity)
         (parse_lines (before ++ "nan inf -inf" :: after))) /\
  (forall points (w : unit),
      In (mkPoint nan infinity neg_infinity) points ->
      exists t stats, calculate_statistics unit points w = (t, Val stats, w)) /\
  (cKDTree.finite_point (mkPoint nan infinity neg_infinity) = false ->
   forall ws, In (mkPoint nan infinity neg_infinity) ws ->
              average_nearest ws = Raise not_finite).
Proof.
  do 6 (split; [reflexivity|]).
  exact (nonfinite_line_accepted unit "nan inf -inf" "nan" "inf" "-inf" []
           nan infinity neg_infinity
           eq_refl eq_refl eq_refl eq_refl eq_refl eq_refl).
Defined.

(** ** The command line and the result channel *)

Lemma usage_counterexample :
  Sim.main Sim.argv_short (Sim.world_of Sim.example_text)
    = ([Stdout usage], Exit 1, Sim.world_of Sim.example_text) /\
  stderr_lines (trace_of (Sim.main Sim.argv_short (Sim.world_of Sim.example_text)))
    = [].
Proof. split; reflexivity. Qed.

Lemma usage_error_witness :
  (List.length Sim.argv_short < 3)%nat /\
  Sim.main Sim.argv_short (Sim.world_of Sim.example_text)
    = ([Stdout usage], Exit 1, Sim.world_of Sim.example_text) /\
  stderr_lines (trace_of (Sim.main Sim.argv_short (Sim.world_of Sim.example_text)))
    = [].
Proof.
  assert (H : (List.length Sim.argv_short < 3)%nat) by (cbn; lia).
  split; [exact H|].
  exact (usage_error Sim.World Sim.fs_read Sim.os_getsize Sim.os_path_basename
           Sim.np_random_choice unit Sim.plt_histogram Sim.plt_scatter3d
           Sim.doc_build Sim.argv_short (Sim.world_of Sim.example_text) H).
Defined.

Lemma failure_reported_witness :
  (3 <= List.length Sim.argv_missing)%nat /\
  Sim.main_body "missing.xyz" "out.pdf" (Sim.world_of Sim.example_text)
    = ([Stdout [Lit "[Parser] Reading file: "; Fmt (PStr "missing.xyz") ""]],
       Raise (Sim.not_found "missing.xyz"),
       Sim.world_of Sim.example_text) /\
  Sim.main Sim.argv_missing (Sim.world_of Sim.example_text)
    = (banner
         ++ [Stdout [Lit "[Parser] Reading file: "; Fmt (PStr "missing.xyz") ""]]
         ++ [Stderr [Lit "ERROR: "; Fmt (PStr (exc_str (Sim.not_found "missing.xyz"))) ""];
             failure_json (Sim.not_found "missing.xyz")],
       Exit 1, Sim.world_of Sim.example_text) /\
  json_results (trace_of (Sim.main Sim.argv_missing (Sim.world_of Sim.example_text)))
    = [failure_json (Sim.not_found "missing.xyz")] /\
  (forall argv2 w2, exists status, snd (fst (Sim.main argv2 w2)) = Exit status).
Proof.
  assert (H : (3 <= List.length Sim.argv_missing)%nat) by (cbn; lia).
  split; [exact H|]. split; [reflexivity|].
  exact (failure_reported Sim.World Sim.fs_read Sim.os_getsize
           Sim.os_path_basename Sim.np_random_choice unit Sim.plt_histogram
           Sim.plt_scatter3d Sim.doc_build Sim.argv_missing
           (Sim.world_of Sim.example_text) _ _ _ H eq_refl).
Defined.

Lemma success_reported_witness :
  (3 <= List.length Sim.argv)%nat /\
  Sim.main_body "in.xyz" "out.pdf" (Sim.world_of Sim.example_text)
    = (trace_of (Sim.main_body "in.xyz" "out.pdf" (Sim.world_of Sim.example_text)),
       Val (Exit 0),
       snd (Sim.main_body "in.xyz" "out.pdf" (Sim.world_of Sim.example_text))) /\
  exists points size mb,
    value_of (Sim.parse_xyz_file "in.xyz" (Sim.world_of Sim.example_text))
      = Val points /\
    Sim.os_getsize
      (snd (Sim.main_body "in.xyz" "out.pdf" (Sim.world_of Sim.example_text)))
      "out.pdf" = Val size /\
    PyNum.int_truediv size 1048576 = Val mb /\
    Sim.main Sim.argv (Sim.world_of Sim.example_text)
      = (banner ++ trace_of (Sim.main_body "in.xyz" "out.pdf"
                               (Sim.world_of Sim.example_text)),
         Exit 0,
         snd (Sim.main_body "in.xyz" "out.pdf" (Sim.world_of Sim.example_text))) /\
    json_results (trace_of (Sim.main Sim.argv (Sim.world_of Sim.example_text)))
      = [success_json "out.pdf" mb (List.length points)].
Proof.
  assert (H : (3 <= List.length Sim.argv)%nat) by (cbn; lia).
  assert (Hrun :
    Sim.main_body "in.xyz" "out.pdf" (Sim.world_of Sim.example_text)
    = (trace_of (Sim.main_body "in.xyz" "out.pdf" (Sim.world_of Sim.example_text)),
       Val (Exit 0),
       snd (Sim.main_body "in.xyz" "out.pdf" (Sim.world_of Sim.example_text))))
    by (vm_compute; reflexivity).
  split; [exact H|]. split; [exact Hrun|].
  exact (success_reported Sim.World Sim.fs_read Sim.os_getsize
           Sim.os_path_basename Sim.np_random_choice unit Sim.plt_histogram
           Sim.plt_scatter3d Sim.doc_build Sim.argv
           (Sim.world_of Sim.example_text) _ _ _ H Hrun).
Defined.

Example example_result :
  json_results (trace_of (Sim.main Sim.argv (Sim.world_of Sim.example_text)))
    = [success_json "out.pdf" 1.5 3] /\
  snd (fst (Sim.main Sim.argv (Sim.world_of Sim.example_text))) = Exit 0.
Proof. split; vm_compute; reflexivity. Qed.

Example rendering_failure :
  json_results (trace_of (Sim.main Sim.argv
                            (Sim.world_with_faults Sim.example_text ["scatter"])))
    = [failure_json (Exception "RuntimeError" "cannot render scatter")] /\
  snd (fst (Sim.main Sim.argv
              (Sim.world_with_faults Sim.example_text ["scatter"]))) = Exit 1.
Proof. split; vm_compute; reflexivity. Qed.

Example assembly_failure :
  json_results (trace_of (Sim.main Sim.argv
                            (Sim.world_with_faults Sim.example_text ["report"])))
    = [failure_json (Exception "PermissionError" "[Errno 13] Permission denied")] /\
  snd (fst (Sim.main Sim.argv
              (Sim.world_with_faults Sim.example_text ["report"]))) = Exit 1.
Proof. split; vm_compute; reflexivity. Qed.

Example nonfinite_run :
  json_results (trace_of (Sim.main Sim.argv (Sim.world_of Sim.nonfinite_text)))
    = [failure_json not_finite] /\
  snd (fst (Sim.main Sim.argv (Sim.world_of Sim.nonfinite_text))) = Exit 1.
Proof. split; vm_compute; reflexivity. Qed.

Example round_two_decimals :
  PyNum.round (np.float_of_Z 21 / np.float_of_Z 8) 2
    = PyFloat.strtod_value false 262 (-2) /\
  PyNum.int_truediv 1572864 1048576 = Val 1.5.
Proof. split; vm_compute; reflexivity. Qed.

(** ** Further runs *)

Lemma skipped_lines_invisible_witness :
  skippable "1 2 x" /\
  parse_lines (["0 0 0"] ++ "1 2 x" :: ["1 1 1"])
    = parse_lines (["0 0 0"] ++ ["1 1 1"]).
Proof.
  assert (H : skippable "1 2 x").
  { do 3 right. exists "1", "2", "x", []. split; [reflexivity|].
    right. right. reflexivity. }
  split; [exact H|].
  exact (skipped_lines_invisible ["0 0 0"] ["1 1 1"] "1 2 x" H).
Defined.

Lemma surrounding_whitespace_ignored_witness :
  all_space "  " = true /\
  all_space (String PyStr.CR PyStr.newline) = true /\
  parse_line ("  " ++ "1 2 3" ++ String PyStr.CR PyStr.newline)%string
    = parse_line "1 2 3".
Proof.
  split; [reflexivity|]. split; [reflexivity|].
  exact (surrounding_whitespace_ignored "  " "1 2 3"
           (String PyStr.CR PyStr.newline) eq_refl eq_refl).
Defined.

Lemma extra_columns_ignored_witness :
  parse_line "1 2 3" = Some (mkPoint 1 2 3) /\
  parse_line ("1 2 3" ++ String " " "255 0 0 label")%string
    = Some (mkPoint 1 2 3).
Proof.
  assert (H : parse_line "1 2 3" = Some (mkPoint 1 2 3))
    by (vm_compute; reflexivity).
  split; [exact H|].
  exact (extra_columns_ignored "1 2 3" "255 0 0 label" " " (mkPoint 1 2 3) H
           (or_introl eq_refl)).
Defined.

Lemma crlf_parses_like_lf_witness :
  has_cr Sim.example_text = false /\
  parse_lines (PyStr.readlines (to_crlf Sim.example_text))
    = parse_lines (PyStr.readlines Sim.example_text).
Proof.
  split; [reflexivity|].
  exact (crlf_parses_like_lf Sim.example_text eq_refl).
Defined.

Lemma statistics_after_parse_witness :
  Sim.parse_xyz_file "in.xyz" (Sim.world_of Sim.example_text)
    = (trace_of (Sim.parse_xyz_file "in.xyz" (Sim.world_of Sim.example_text)),
       Val example_points, Sim.world_of Sim.example_text) /\
  exists t2 stats,
    calculate_statistics Sim.World example_points (Sim.world_of Sim.example_text)
      = (t2, Val stats, Sim.world_of Sim.example_text) /\
    count stats = List.length example_points /\
    (0 < count stats)%nat.
Proof.
  assert (H : Sim.parse_xyz_file "in.xyz" (Sim.world_of Sim.example_text)
    = (trace_of (Sim.parse_xyz_file "in.xyz" (Sim.world_of Sim.example_text)),
       Val example_points, Sim.world_of Sim.example_text))
    by (vm_compute; reflexivity).
  split; [exact H|].
  exact (statistics_after_parse Sim.World Sim.fs_read Sim.os_path_basename
           "in.xyz" _ _ _ _ H).
Defined.

Lemma nan_poisons_axis_witness :
  In (mkPoint nan 0 0) [mkPoint 1 2 3; mkPoint nan 0 0] /\
  exists t stats,
    calculate_statistics unit [mkPoint 1 2 3; mkPoint nan 0 0] tt
      = (t, Val stats, tt) /\
    x_min stats = nan /\ x_max stats = nan /\ x_extent stats = nan /\
    x_mean stats = nan /\ x_std stats = nan.
Proof.
  assert (H : In (mkPoint nan 0 0) [mkPoint 1 2 3; mkPoint nan 0 0])
    by (right; left; reflexivity).
  split; [exact H|].
  destruct (nan_poisons_axis unit [mkPoint 1 2 3; mkPoint nan 0 0] tt
              (mkPoint nan 0 0) H) as (t & stats & Hrun & Hx & _).
  exists t, stats. split; [exact Hrun|]. apply Hx. reflexivity.
Defined.

Lemma duplicate_distance_zero_witness :
  cKDTree.all_finite
    ([mkPoint 5 5 5] ++ mkPoint 0 0 0 :: [mkPoint 1 0 0] ++ mkPoint 0 0 0 :: [])
    = true /\
  exists distances,
    cKDTree.query
      (cKDTree.Tree
         ([mkPoint 5 5 5] ++ mkPoint 0 0 0 :: [mkPoint 1 0 0]
            ++ mkPoint 0 0 0 :: []))
      ([mkPoint 5 5 5] ++ mkPoint 0 0 0 :: [mkPoint 1 0 0]
         ++ mkPoint 0 0 0 :: []) = Val distances /\
    average_nearest
      ([mkPoint 5 5 5] ++ mkPoint 0 0 0 :: [mkPoint 1 0 0]
         ++ mkPoint 0 0 0 :: [])
      = Val (np.mean (map snd distances)) /\
    nth_error distances 1 = Some (0, 0) /\
    nth_error distances 3 = Some (0, 0).
Proof.
  split; [reflexivity|].
  exact (duplicate_distance_zero [mkPoint 5 5 5] [mkPoint 1 0 0] []
           (mkPoint 0 0 0) eq_refl).
Defined.

Lemma average_never_negative_witness :
  value_of (Sim.calculate_nearest_neighbor_distance example_points 1000
              (Sim.world_of Sim.example_text)) = Val 1 /\
  (1 <? 0) = false.
Proof.
  assert (H : value_of (Sim.calculate_nearest_neighbor_distance
                          example_points 1000 (Sim.world_of Sim.example_text))
              = Val 1) by (vm_compute; reflexivity).
  split; [exact H|].
  exact (average_never_negative Sim.World Sim.np_random_choice example_points
           1000 (Sim.world_of Sim.example_text) 1 H).
Defined.

Lemma sample_subset_witness :
  Sim.np_random_choice (List.length line_points) 1000 false
      (Sim.world_drawing draw_a)
    = (Val draw_a, Sim.mkWorld [] [] [] []) /\
  valid_draw (List.length line_points) 1000 draw_a /\
  exists ws,
    value_of (Sim.sample line_points 1000 (Sim.world_drawing draw_a)) = Val ws /\
    List.length ws = Nat.min (List.length line_points) 1000 /\
    incl ws line_points.
Proof.
  split; [reflexivity|]. split; [exact (proj1 draws_valid)|].
  exact (sample_subset Sim.World Sim.np_random_choice line_points 1000
           (Sim.world_drawing draw_a) draw_a (Sim.mkWorld [] [] [] [])
           (fun _ => conj eq_refl (proj1 draws_valid))).
Defined.

Lemma many_points_length : List.length many_points = S vis_limit.
Proof. unfold many_points. now rewrite length_map, length_seq. Qed.

Lemma downsampled_view_witness :
  Sim.np_random_choice (List.length many_points) vis_limit false
      (Sim.world_drawing (seq 0 vis_limit))
    = (Val (seq 0 vis_limit), Sim.mkWorld [] [] [] []) /\
  valid_draw (List.length many_points) vis_limit (seq 0 vis_limit) /\
  exists vis_points,
    value_of (downsample Sim.World Sim.np_random_choice many_points
                (Sim.world_drawing (seq 0 vis_limit))) = Val vis_points /\
    (if (vis_limit <? List.length many_points)%nat then
       List.length vis_points = vis_limit /\
       (List.length vis_points < List.length many_points)%nat /\
       Forall2 (fun i p => nth_error many_points i = Some p)
               (seq 0 vis_limit) vis_points
     else vis_points = many_points) /\
    forall dpi,
      value_of (create_3d_visualization Sim.World Sim.np_random_choice unit
                  Sim.plt_scatter3d many_points dpi
                  (Sim.world_drawing (seq 0 vis_limit)))
        = fst (Sim.plt_scatter3d vis_points dpi
                 (if (vis_limit <? List.length many_points)%nat
                  then Sim.mkWorld [] [] [] []
                  else Sim.world_drawing (seq 0 vis_limit))) /\
      snd (create_3d_visualization Sim.World Sim.np_random_choice unit
             Sim.plt_scatter3d many_points dpi
             (Sim.world_drawing (seq 0 vis_limit)))
        = snd (Sim.plt_scatter3d vis_points dpi
                 (if (vis_limit <? List.length many_points)%nat
                  then Sim.mkWorld [] [] [] []
                  else Sim.world_drawing (seq 0 vis_limit))).
Proof.
  assert (Hdraw : valid_draw (List.length many_points) vis_limit
                    (seq 0 vis_limit)).
  { split; [apply length_seq|]. split; [apply seq_NoDup|].
    apply Forall_forall. intros i Hi. apply in_seq in Hi.
    rewrite many_points_length. apply Nat.lt_lt_succ_r, Hi. }
  split; [reflexivity|]. split; [exact Hdraw|].
  exact (downsampled_view Sim.World Sim.np_random_choice unit
           Sim.plt_scatter3d many_points
           (Sim.world_drawing (seq 0 vis_limit)) (seq 0 vis_limit)
           (Sim.mkWorld [] [] [] []) (fun _ => conj eq_refl Hdraw)).
Defined.

Lemma oversize_only_warns_witness :
  sim_doc_build_sized 3145728 "out.pdf" "in.xyz" sim_stats 1 tt tt
      (Sim.world_of EmptyString)
    = (Val tt, Sim.mkWorld [("in.xyz", EmptyString)]
                           [("out.pdf", 3145728%Z)] [] []) /\
  Sim.os_getsize (Sim.mkWorld [("in.xyz", EmptyString)]
                              [("out.pdf", 3145728%Z)] [] []) "out.pdf"
    = Val 3145728%Z /\
  PyNum.int_truediv 3145728 1048576 = Val 3 /\
  exists t,
    generate_pdf_report Sim.World Sim.os_getsize unit
        (sim_doc_build_sized 3145728) example_points sim_stats 1 tt tt
        "out.pdf" "in.xyz" (Sim.world_of EmptyString)
      = (t, Val "out.pdf", Sim.mkWorld [("in.xyz", EmptyString)]
                                       [("out.pdf", 3145728%Z)] [] []) /\
    (In size_warning t <-> (2 <? 3) = true).
Proof.
  assert (Hdiv : PyNum.int_truediv 3145728 1048576 = Val 3)
    by (vm_compute; reflexivity).
  split; [reflexivity|]. split; [reflexivity|]. split; [exact Hdiv|].
  exact (oversize_only_warns Sim.World Sim.os_getsize unit
           (sim_doc_build_sized 3145728) example_points sim_stats 1 tt tt
           "out.pdf" "in.xyz" (Sim.world_of EmptyString) _ 3145728%Z 3
           eq_refl eq_refl Hdiv).
Defined.

Lemma nonfinite_input_aborts_witness :
  (3 <= List.length Sim.argv)%nat /\
  Sim.fs_read (Sim.world_of Sim.nonfinite_text) (nth 1 Sim.argv EmptyString)
    = Val Sim.nonfinite_text /\
  cKDTree.all_finite (parse_lines (PyStr.readlines Sim.nonfinite_text)) = false /\
  (List.length (parse_lines (PyStr.readlines Sim.nonfinite_text)) <= 1000)%nat /\
  snd (Sim.main Sim.argv (Sim.world_of Sim.nonfinite_text))
    = Sim.world_of Sim.nonfinite_text /\
  status_of (Sim.main Sim.argv (Sim.world_of Sim.nonfinite_text)) = Exit 1 /\
  json_results (trace_of (Sim.main Sim.argv (Sim.world_of Sim.nonfinite_text)))
    = [failure_json not_finite].
Proof.
  assert (H1 : (3 <= List.length Sim.argv)%nat) by (cbn; lia).
  assert (H2 : cKDTree.all_finite
                 (parse_lines (PyStr.readlines Sim.nonfinite_text)) = false)
    by (vm_compute; reflexivity).
  assert (H3 : (List.length (parse_lines (PyStr.readlines Sim.nonfinite_text))
                <= 1000)%nat).
  { replace (List.length (parse_lines (PyStr.readlines Sim.nonfinite_text)))
      with 2%nat by (vm_compute; reflexivity). lia. }
  split; [exact H1|]. split; [reflexivity|]. split; [exact H2|].
  split; [exact H3|].
  exact (nonfinite_input_aborts Sim.World Sim.fs_read Sim.os_getsize
           Sim.os_path_basename Sim.np_random_choice unit Sim.plt_histogram
           Sim.plt_scatter3d Sim.doc_build Sim.argv
           (Sim.world_of Sim.nonfinite_text) Sim.nonfinite_text
           H1 eq_refl H2 H3).
Defined.

Lemma result_is_last_line_witness :
  (3 <= List.length Sim.argv)%nat /\
  exists t0 j,
    trace_of (Sim.main Sim.argv (Sim.world_of Sim.example_text)) = t0 ++ [j] /\
    is_json j = true.
Proof.
  assert (H1 : (3 <= List.length Sim.argv)%nat) by (cbn; lia).
  split; [exact H1|].
  exact (result_is_last_line Sim.World Sim.fs_read Sim.os_getsize
           Sim.os_path_basename Sim.np_random_choice unit Sim.plt_histogram
           Sim.plt_scatter3d Sim.doc_build Sim.argv
           (Sim.world_of Sim.example_text) H1).
Defined.

Lemma unreadable_input_reported_witness :
  (3 <= List.length Sim.argv_missing)%nat /\
  Sim.fs_read (Sim.world_of Sim.example_text) (nth 1 Sim.argv_missing EmptyString)
    = Raise (Sim.not_found "missing.xyz") /\
  Sim.main Sim.argv_missing (Sim.world_of Sim.example_text)
    = (banner ++
       [Stdout [Lit "[Parser] Reading file: "; Fmt (PStr "missing.xyz") ""];
        error_line (Sim.not_found "missing.xyz");
        failure_json (Sim.not_found "missing.xyz")],
       Exit 1, Sim.world_of Sim.example_text).
Proof.
  assert (H1 : (3 <= List.length Sim.argv_missing)%nat) by (cbn; lia).
  split; [exact H1|]. split; [reflexivity|].
  exact (unreadable_input_reported Sim.World Sim.fs_read Sim.os_getsize
           Sim.os_path_basename Sim.np_random_choice unit Sim.plt_histogram
           Sim.plt_scatter3d Sim.doc_build Sim.argv_missing
           (Sim.world_of Sim.example_text) _ H1 eq_refl).
Defined.

Lemma extent_never_negative_witness :
  exists t stats,
    calculate_statistics unit example_points tt = (t, Val stats, tt) /\
    (x_extent stats <? 0) = false /\
    (y_extent stats <? 0) = false /\
    (z_extent stats <? 0) = false.
Proof.
  destruct (statistics_runs unit example_points tt ltac:(discriminate))
    as (t & stats & H).
  exists t, stats. split; [exact H|].
  exact (extent_never_negative unit example_points tt tt t stats H).
Defined.
